(** * afx self-update: a shallow embedding of [cmd/self-update.go]

    The command has two entry points, [run] (automatic mode) and
    [selectTag] (interactive mode, behind the hidden [--select] flag).
    Both talk to collaborators that live outside the file: the semantic
    version package, the release detector and installer, the prompt
    library, the operating system.  The collaborators are modelled here
    as far as the command observes them; the two entry points are
    transcribed statement by statement over a small state monad that
    carries the file system and the trace of observable effects. *)

From Stdlib Require Import NArith Lia String Ascii List DecimalString DecimalN.
From stdpp Require Import base option list strings gmap sorting.

Local Open Scope string_scope.

(** ** Three-way comparisons *)

(** A comparison function is an order when swapping the arguments
    flips the answer, [Eq] means equal, and [Lt] chains. *)
Class CmpOrder {A : Type} (cmp : A -> A -> comparison) : Prop := {
  cmp_antisym : forall x y, cmp y x = CompOpp (cmp x y);
  cmp_eq : forall x y, cmp x y = Eq -> x = y;
  cmp_lt_trans : forall x y z, cmp x y = Lt -> cmp y z = Lt -> cmp x z = Lt
}.

(** [lex c k]: the first difference decides, as in the chains of
    [if d != 0 { return d }] of a field-by-field comparison. *)
Definition lex (c k : comparison) : comparison :=
  match c with
  | Eq => k
  | _ => c
  end.

(** ** Text *)

(** [strings.Join]. *)
Fixpoint strings_Join (sep : string) (l : list string) : string :=
  match l with
  | [] => ""
  | [s] => s
  | s :: l' => s +:+ sep +:+ strings_Join sep l'
  end.

(** ** Semantic versions *)

Module semver.

(** Modelled from the spec: the version comparator (package
    [Masterminds/semver/v3], not part of the repository's sources).
    Section 3 gives the data, "major.minor.patch, optional
    pre-release/build metadata"; section 4.1 the contract: [parse]
    rejects malformed strings, [compare] is the standard precedence
    over (major, minor, patch, pre-release). *)

(** Modelled from the spec: a pre-release identifier, numeric or
    alphanumeric. *)
Inductive identifier : Type :=
| Numeric (n : N)
| Alphanum (s : string).

(** Modelled from the spec: a version, "major.minor.patch, optional
    pre-release/build metadata" (section 3). *)
Record Version : Type := mkVersion {
  major : N;
  minor : N;
  patch : N;
  pre : list identifier;
  metadata : string
}.

(** *** Precedence *)

(** Modelled from the spec: the standard precedence of two
    identifiers.  Numeric ones compare by value, alphanumeric ones in
    ASCII order, and a numeric identifier is lower than an
    alphanumeric one. *)
Definition compareIdent (s o : identifier) : comparison :=
  match s, o with
  | Numeric a, Numeric b => (a ?= b)%N
  | Numeric _, Alphanum _ => Lt
  | Alphanum _, Numeric _ => Gt
  | Alphanum a, Alphanum b => String.compare a b
  end.

(** Modelled from the spec: identifier by identifier from the left;
    when one list is a prefix of the other the longer one is higher. *)
Fixpoint compareIdents (s o : list identifier) : comparison :=
  match s, o with
  | [], [] => Eq
  | [], _ :: _ => Lt
  | _ :: _, [] => Gt
  | x :: s', y :: o' => lex (compareIdent x y) (compareIdents s' o')
  end.

(** Modelled from the spec: a version without pre-release is higher
    than the same version with one. *)
Definition comparePrerelease (s o : list identifier) : comparison :=
  match s, o with
  | [], [] => Eq
  | [], _ :: _ => Gt
  | _ :: _, [] => Lt
  | _, _ => compareIdents s o
  end.

(** Modelled from the spec: [Compare] of section 4.1, "total order
    over (major, minor, patch, pre-release)".  The build metadata takes
    no part. *)
Definition Compare (v o : Version) : comparison :=
  lex (major v ?= major o)%N
    (lex (minor v ?= minor o)%N
       (lex (patch v ?= patch o)%N
          (comparePrerelease (pre v) (pre o)))).

(** Modelled from the spec: the "convenience predicates built on
    compare" of section 4.1. *)
Definition LessThan (v o : Version) : bool :=
  match Compare v o with Lt => true | _ => false end.

Definition GreaterThan (v o : Version) : bool :=
  match Compare v o with Gt => true | _ => false end.

Definition LessOrEqual (v o : Version) : bool :=
  match Compare v o with Gt => false | _ => true end.

Definition Equal (v o : Version) : bool :=
  match Compare v o with Eq => true | _ => false end.

(** The fields the precedence looks at. *)
Definition precedence (v : Version) : N * N * N * list identifier :=
  (major v, minor v, patch v, pre v).

(** *** Printing *)

Definition decimal (n : N) : string := NilZero.string_of_uint (N.to_uint n).

Definition identString (i : identifier) : string :=
  match i with
  | Numeric n => decimal n
  | Alphanum s => s
  end.

(** Modelled from the spec: [String], the text of a version in the
    layout of section 3. *)
Definition String (v : Version) : string :=
  decimal (major v) +:+ "." +:+ decimal (minor v) +:+ "." +:+ decimal (patch v)
  +:+ match pre v with
      | [] => ""
      | _ => "-" +:+ strings_Join "." (map identString (pre v))
      end
  +:+ match metadata v with
      | "" => ""
      | m => "+" +:+ m
      end.

(** *** Parsing *)

Definition isDigit (c : ascii) : bool :=
  (48 <=? nat_of_ascii c)%nat && (nat_of_ascii c <=? 57)%nat.

Definition isLetter (c : ascii) : bool :=
  ((65 <=? nat_of_ascii c)%nat && (nat_of_ascii c <=? 90)%nat)
  || ((97 <=? nat_of_ascii c)%nat && (nat_of_ascii c <=? 122)%nat).

(** The characters of an identifier: digits, letters and the hyphen. *)
Definition isIdentChar (c : ascii) : bool :=
  isDigit c || isLetter c || Ascii.eqb c "-"%char.

Fixpoint allChars (p : ascii -> bool) (s : string) : bool :=
  match s with
  | EmptyString => true
  | String.String c s' => p c && allChars p s'
  end.

(** [cut c s]: the text before the first [c], and the text after it
    when there is one. *)
Fixpoint cut (c : ascii) (s : string) : string * option string :=
  match s with
  | EmptyString => (EmptyString, None)
  | String.String a s' =>
      if Ascii.eqb a c then (EmptyString, Some s')
      else let '(l, r) := cut c s' in (String.String a l, r)
  end.

(** [strings.Split] on one character: never the empty list. *)
Fixpoint split (c : ascii) (s : string) : list string :=
  match s with
  | EmptyString => [EmptyString]
  | String.String a s' =>
      if Ascii.eqb a c then EmptyString :: split c s'
      else match split c s' with
           | [] => [String.String a EmptyString]
           | w :: ws => String.String a w :: ws
           end
  end.

(** A numeric field: digits only, not empty, no leading zero. *)
Definition parseNumeric (s : string) : option N :=
  match s with
  | EmptyString => None
  | String.String "0" (String.String _ _) => None
  | _ => if allChars isDigit s
         then N.of_uint <$> NilZero.uint_of_string s
         else None
  end.

Definition parseIdent (s : string) : option identifier :=
  match s with
  | EmptyString => None
  | _ => if allChars isDigit s then Numeric <$> parseNumeric s
         else if allChars isIdentChar s then Some (Alphanum s)
         else None
  end.

Definition validBuildIdent (s : string) : bool :=
  match s with
  | EmptyString => false
  | _ => allChars isIdentChar s
  end.

(** Modelled from the spec: [parse] of section 4.1, [Some v] for a
    semantic version and [None] for a malformed string
    ([InvalidVersion]). *)
Definition parse (s : string) : option Version :=
  let '(rest, meta) := cut "+" s in
  let '(core, prerelease) := cut "-" rest in
  match split "." core with
  | [a; b; c] =>
      ma ← parseNumeric a;
      mi ← parseNumeric b;
      pa ← parseNumeric c;
      p ← match prerelease with
          | None => Some []
          | Some t => mapM parseIdent (split "." t)
          end;
      m ← match meta with
          | None => Some ""
          | Some t => if forallb validBuildIdent (split "." t) then Some t else None
          end;
      Some (mkVersion ma mi pa p m)
  | _ => None
  end.

End semver.

(** ** Errors, files and the observable effects *)

(** Go error values, by the way they were built. *)
Inductive error : Type :=
| New (msg : string)                     (* errors.New *)
| Wrap (cause : error) (msg : string)    (* errors.Wrap *)
| Errorf (msg : string)                  (* fmt.Errorf, already formatted *)
| Foreign (msg : string).                (* handed back by a collaborator *)

(** The [(value, err)] pair a Go call returns. *)
Inductive result (A : Type) : Type :=
| Ok (a : A)
| Failed (err : error).
Arguments Ok {A} a.
Arguments Failed {A} err.

Record file : Type := mkFile {
  contents : list Byte.byte;
  perm : N
}.

(** [config.Asset], the fields [selectTag] fills in. *)
Record Asset : Type := mkAsset {
  Name : string;
  Home : string;
  Path : string;
  URL : string
}.

(** [selfupdate.Release], the fields [run] reads. *)
Record Release : Type := mkRelease {
  AssetURL : string;
  AssetName : string;
  version : semver.Version
}.

(** The decoded body of the releases listing: what the [gjson] queries
    of [selectTag] read from it. *)
Record assetJSON : Type := mkAssetJSON {
  js_name : string;
  js_browser_download_url : string
}.

Record releaseJSON : Type := mkReleaseJSON {
  js_tag_name : string;
  js_assets : list assetJSON
}.

Inductive event : Type :=
| EvHttpGet (url : string)
| EvDetectLatest (repository : string)
| EvAskSelect (message : string) (options : list string)
| EvAskConfirm (message : string)
| EvDownload (assets : list Asset)
| EvUnarchive (asset : Asset)
| EvOpen (path : string)
| EvExecutable
| EvUpdateTo (url name exe : string)
| EvApply (target : string)
| EvStdout (text : string)
| EvStderr (text : string)
| EvLog (text : string).

Definition isNetwork (ev : event) : bool :=
  match ev with
  | EvHttpGet _ | EvDetectLatest _ | EvDownload _ | EvUpdateTo _ _ _ => true
  | _ => false
  end.

Definition isPrompt (ev : event) : bool :=
  match ev with
  | EvAskSelect _ _ | EvAskConfirm _ => true
  | _ => false
  end.

Definition isInstall (ev : event) : bool :=
  match ev with
  | EvUpdateTo _ _ _ | EvApply _ => true
  | _ => false
  end.

(** ** The state monad of the command *)

Record world : Type := mkWorld {
  fs : gmap string file;
  trace : list event
}.

(** A computation returns or panics. *)
Inductive outcome (A : Type) : Type :=
| Returns (a : A)
| Panics (msg : string).
Arguments Returns {A} a.
Arguments Panics {A} msg.

Definition M (A : Type) : Type := world -> outcome A * world.

Definition ret {A} (a : A) : M A := fun w => (Returns a, w).

Definition bind {A B} (m : M A) (k : A -> M B) : M B :=
  fun w =>
    match m w with
    | (Returns a, w') => k a w'
    | (Panics msg, w') => (Panics msg, w')
    end.

Definition panic {A} (msg : string) : M A := fun w => (Panics msg, w).

Definition emit (ev : event) : M unit :=
  fun w => (Returns tt, mkWorld (fs w) (trace w ++ [ev])).

Definition readFile (path : string) : M (option file) :=
  fun w => (Returns (fs w !! path), w).

Definition writeFile (path : string) (f : file) : M unit :=
  fun w => (Returns tt, mkWorld (<[path := f]> (fs w)) (trace w)).

Definition removeFile (path : string) : M unit :=
  fun w => (Returns tt, mkWorld (delete path (fs w)) (trace w)).

Notation "x <~ c ; k" := (bind c (fun x => k))
  (at level 20, c at level 100, k at level 200, only parsing).

(** ** The environment of one invocation *)

(** Where the installer is made to fail. *)
Inductive fault : Type :=
| NoFault
| WriteFault (written : nat)   (* the temporary file gets [written] bytes *)
| VerifyFault                  (* the temporary file cannot be read back *)
| SwapFault.                   (* the rename is refused *)

(** The build-time constants and the scripted answers of the
    collaborators. *)
Record Env : Type := mkEnv {
  Version : string;
  Repository : string;
  GOOS : string;
  GOARCH : string;
  goVersion : string;
  HOME : string;
  initError : option error;                 (* meta.init *)
  detected : result (option Release);       (* selfupdate.DetectLatest *)
  confirmed : result bool;                  (* survey.AskOne on a Confirm *)
  selected : option nat;                    (* survey.AskOne on a Select *)
  executable : result string;               (* os.Executable *)
  listed : result (list releaseJSON);       (* http.Get of the listing *)
  fetched : result (list Byte.byte);        (* the bytes of the asset *)
  matched : result nat;                     (* the asset of the platform *)
  unpacked : result (list (string * file)); (* the entries of the archive *)
  installFault : fault
}.

(** [selfUpdateCmd]: the flag and the annotation table.  The table is
    a Go map: the list gives its pairs in the order this run iterates
    them, and a lookup takes the pair of the key. *)
Record selfUpdateCmd : Type := mkCmd {
  opt_tag : bool;
  annotation : list (string * string)
}.

(** ** Text helpers *)

Definition quote : string := String.String (ascii_of_nat 34) EmptyString.
Definition newline : string := String.String (ascii_of_nat 10) EmptyString.

(** A path is rooted when it starts with the separator. *)
Definition isRooted (path : string) : bool :=
  match path with
  | String.String "/" _ => true
  | _ => false
  end.

(** The elements of a path, one after the other, by the rules of
    [filepath.Clean]: an empty element and [.] are dropped; [..]
    takes away the element before it, is dropped at the root, and is
    kept at the start of a path that is not rooted.  [out] holds the
    elements kept so far, the last one first. *)
Fixpoint cleanElems (rooted : bool) (out elems : list string) : list string :=
  match elems with
  | [] => out
  | e :: rest =>
      if String.eqb e "" || String.eqb e "." then cleanElems rooted out rest
      else if String.eqb e ".." then
        match out with
        | top :: out' =>
            if String.eqb top ".." then cleanElems rooted (e :: out) rest
            else cleanElems rooted out' rest
        | [] =>
            if rooted then cleanElems rooted [] rest
            else cleanElems rooted [e] rest
        end
      else cleanElems rooted (e :: out) rest
  end.

(** [filepath.Clean] (separator [/]): the shortest path of the same
    meaning; the empty path becomes [.]. *)
Definition filepath_Clean (path : string) : string :=
  let out := rev (cleanElems (isRooted path) [] (semver.split "/" path)) in
  if isRooted path then "/" +:+ strings_Join "/" out
  else match out with
       | [] => "."
       | _ => strings_Join "/" out
       end.

(** [filepath.Join]: the leading empty elements are skipped, the rest
    is joined with the separator and cleaned; nothing but empty
    elements gives the empty path. *)
Fixpoint filepath_Join (elems : list string) : string :=
  match elems with
  | [] => ""
  | e :: rest =>
      if String.eqb e "" then filepath_Join rest
      else filepath_Clean (strings_Join "/" elems)
  end.
Arguments filepath_Join : simpl never.


(** [m[key]] on a Go map of strings: the empty string when the key is
    absent. *)
Fixpoint mapIndex (m : list (string * string)) (key : string) : string :=
  match m with
  | [] => ""
  | (k, v) :: m' => if String.eqb k key then v else mapIndex m' key
  end.

(** ** The collaborators *)

(** Modelled from the spec: [semver.MustParse], the parse of section
    4.1 whose failure is a panic instead of an error value. *)
Definition MustParse (s : string) : M semver.Version :=
  match semver.parse s with
  | Some v => ret v
  | None => panic "Invalid Semantic Version"
  end.

(** [Release.Version]: the text of the release's version. *)
Definition Release_Version (r : Release) : string := semver.String (version r).

(** Modelled from the spec: [Release.LessOrEqual] of package
    [go-selfupdate], which takes the other version as a string.
    Section 4.1 builds the predicate on [compare] over parsed versions,
    and section 7 makes a version string that fails to parse fatal for
    the comparison it blocks. *)
Definition Release_LessOrEqual (r : Release) (other : string) : M bool :=
  o <~ MustParse other ;
  ret (semver.LessOrEqual (version r) o).

(** The collaborators below record the call and hand back the answer
    the environment scripts for them. *)

(** [selfupdate.DetectLatest]: [Ok None] is "found = false". *)
Definition DetectLatest (env : Env) (repository : string)
  : M (result (option Release)) :=
  _ <~ emit (EvDetectLatest repository) ;
  ret (detected env).

(** [survey.AskOne] on the [Confirm] of [run]. *)
Definition AskConfirm (env : Env) (message : string) : M (result bool) :=
  _ <~ emit (EvAskConfirm message) ;
  ret (confirmed env).

(** [survey.AskOne] on the [Select] of [selectTag]: the answer is
    written into [tag], which starts empty and stays so when the
    prompt fails; the error is not looked at. *)
Definition AskSelect (env : Env) (message : string) (options : list string)
  : M string :=
  _ <~ emit (EvAskSelect message options) ;
  ret (match selected env with
       | Some i => match options !! i with
                   | Some t => t
                   | None => ""
                   end
       | None => ""
       end).

(** [os.Executable]. *)
Definition os_Executable (env : Env) : M (result string) :=
  _ <~ emit EvExecutable ;
  ret (executable env).

(** [http.Get] and the read of the body, decoded. *)
Definition http_Get (env : Env) (url : string) : M (result (list releaseJSON)) :=
  _ <~ emit (EvHttpGet url) ;
  ret (listed env).

(** [os.Open]: fails when there is no file at the path. *)
Definition os_Open (path : string) : M (result file) :=
  _ <~ emit (EvOpen path) ;
  f <~ readFile path ;
  ret (match f with
       | Some f => Ok f
       | None => Failed (Foreign ("open " +:+ path +:+ ": no such file or directory"))
       end).

(** Modelled from the spec: [GitHubRelease.Download] of [pkg/config],
    which is not among the sources.  Section 3: exactly one asset
    should match the platform and the selection fails explicitly
    otherwise; section 4.2: fetching fails with a network error or
    yields the bytes.  The asset returned is one of the release's and
    its bytes are stored at its [Path]. *)
Definition Download (env : Env) (assets : list Asset) : M (result Asset) :=
  _ <~ emit (EvDownload assets) ;
  match matched env with
  | Failed err => ret (Failed err)
  | Ok i =>
      match assets !! i with
      | None => ret (Failed (Foreign "no asset for this platform"))
      | Some a =>
          match fetched env with
          | Failed err => ret (Failed err)
          | Ok bytes => _ <~ writeFile (Path a) (mkFile bytes 420) ; ret (Ok a)
          end
      end
  end.

(** The entries of an archive written under [home]. *)
Fixpoint writeEntries (home : string) (entries : list (string * file)) : M unit :=
  match entries with
  | [] => ret tt
  | (n, f) :: rest =>
      _ <~ writeFile (filepath_Join [home; n]) f ; writeEntries home rest
  end.

(** Modelled from the spec: [GitHubRelease.Unarchive] of [pkg/config],
    which is not among the sources.  The extraction format is out of
    the spec's scope: the entries of the archive land in the asset's
    home directory, or the step fails. *)
Definition Unarchive (env : Env) (asset : Asset) : M (result unit) :=
  _ <~ emit (EvUnarchive asset) ;
  match unpacked env with
  | Failed err => ret (Failed err)
  | Ok entries => _ <~ writeEntries (Home asset) entries ; ret (Ok tt)
  end.

(** *** The binary installer *)

(** The temporary file, next to the target. *)
Definition tempPath (target : string) : string := target +:+ ".new".

(** Mode 0755, for a target that did not exist. *)
Definition defaultPerm : N := 493.

(** Modelled from the spec: the installer behind [selfupdate.UpdateTo]
    and [update.Apply] (packages [go-selfupdate] and [go-update]).
    Section 4.4: write the new binary to a temporary location adjacent
    to the target, verify it is readable and non-empty, then swap it
    into the target path by a rename, keeping the mode of the original
    file. *)
Definition install (flt : fault) (src : list Byte.byte) (target : string)
  : M (result unit) :=
  old <~ readFile target ;
  let mode := match old with Some f => perm f | None => defaultPerm end in
  match flt with
  | WriteFault n =>
      _ <~ writeFile (tempPath target) (mkFile (take n src) mode) ;
      ret (Failed (Foreign "write: no space left on device"))
  | _ =>
      _ <~ writeFile (tempPath target) (mkFile src mode) ;
      match flt, src with
      | VerifyFault, _ => ret (Failed (Foreign "read: input/output error"))
      | _, [] => ret (Failed (Foreign "empty binary"))
      | SwapFault, _ => ret (Failed (Foreign "rename: permission denied"))
      | _, _ =>
          _ <~ removeFile (tempPath target) ;
          _ <~ writeFile target (mkFile src mode) ;
          ret (Ok tt)
      end
  end.

(** Modelled from the spec: [selfupdate.UpdateTo] of package
    [go-selfupdate]: fetch the bytes of the asset (section 4.2), then
    install them (section 4.4). *)
Definition UpdateTo (env : Env) (url name exe : string) : M (result unit) :=
  _ <~ emit (EvUpdateTo url name exe) ;
  match fetched env with
  | Failed err => ret (Failed err)
  | Ok bytes => install (installFault env) bytes exe
  end.

(** Modelled from the spec: [update.Apply] of package [go-update]
    with [TargetPath] set: install the bytes of the open file (section
    4.4). *)
Definition update_Apply (env : Env) (fp : file) (target : string) : M (result unit) :=
  _ <~ emit (EvApply target) ;
  install (installFault env) (contents fp) target.

(** ** [selectTag] *)

Definition selectTag (c : selfUpdateCmd) (env : Env) : M (option error) :=
  resp <~ http_Get env ("https://api.github.com/repos/" +:+ Repository env +:+ "/releases") ;
  match resp with
  | Failed err => ret (Some err)
  | Ok body =>
      let tags := map js_tag_name body in
      tag <~ AskSelect env "Choose a tag you upgrade/downgrade:" tags ;
      let rel := List.find (fun r => String.eqb (js_tag_name r) tag) body in
      let assets := match rel with
                    | Some r => js_assets r
                    | None => []
                    end in
      let release_Assets :=
        map (fun value =>
               mkAsset (js_name value)
                       (filepath_Join [HOME env; ".afx"])
                       (filepath_Join [HOME env; ".afx"; js_name value])
                       (js_browser_download_url value))
            assets in
      d <~ Download env release_Assets ;
      match d with
      | Failed err => ret (Some err)
      | Ok asset =>
          u <~ Unarchive env asset ;
          match u with
          | Failed err => ret (Some err)
          | Ok _ =>
              o <~ os_Open (filepath_Join [Home asset; "afx"]) ;
              match o with
              | Failed err => ret (Some err)
              | Ok fp =>
                  e <~ os_Executable env ;
                  match e with
                  | Failed _ => ret (Some (New "could not locate executable path"))
                  | Ok exe =>
                      a <~ update_Apply env fp exe ;
                      ret (match a with
                           | Ok _ => None
                           | Failed err => Some err
                           end)
                  end
              end
          end
      end
  end.

(** ** [run] *)

(** [Collection.Less] is [LessThan]; the order a sort by it produces
    is the non-strict one. *)
Definition versionLe (a b : semver.Version) : Prop :=
  semver.LessOrEqual a b = true.

#[global] Instance versionLe_dec a b : Decision (versionLe a b).
Proof. unfold versionLe. apply _. Defined.

(** [sort.Sort(semver.Collection(vs))].  Go's sort is not stable; the
    theorems below use of it only that the result is an ascending
    rearrangement of [vs]. *)
Definition sort_Sort (vs : list semver.Version) : list semver.Version :=
  merge_sort versionLe vs.

(** Lines 205-208: every key of the table through [MustParse]. *)
Fixpoint parseKeys (keys : list string) (vs : list semver.Version)
  : M (list semver.Version) :=
  match keys with
  | [] => ret vs
  | v :: keys' =>
      p <~ MustParse v ;
      parseKeys keys' (vs ++ [p])
  end.

(** Lines 211-226: the walk over the sorted versions. *)
Fixpoint noticeLoop (c : selfUpdateCmd) (env : Env) (latest : Release)
    (vs : list semver.Version) (messages : list string) : M (list string) :=
  match vs with
  | [] => ret messages
  | v :: vs' =>
      start <~ MustParse (Version env) ;
      stop <~ MustParse (Release_Version latest) ;
      _ <~ emit (EvLog ("[DEBUG] (self-update) Current version: " +:+ semver.String start)) ;
      _ <~ emit (EvLog ("[DEBUG] (self-update) Next version:    " +:+ semver.String v)) ;
      if semver.LessThan stop v then ret messages
      else if semver.GreaterThan v start
           then noticeLoop c env latest vs'
                  (messages ++ ["- " +:+ mapIndex (annotation c) (semver.String v)])
           else noticeLoop c env latest vs' messages
  end.

(** Lines 205-226 together: the messages of an update to [latest]. *)
Definition notices (c : selfUpdateCmd) (env : Env) (latest : Release)
  : M (list string) :=
  vs <~ parseKeys (map fst (annotation c)) [] ;
  noticeLoop c env latest (sort_Sort vs) [].

Definition run (c : selfUpdateCmd) (env : Env) : M (option error) :=
  if String.eqb (Version env) "unset" then
    _ <~ emit (EvStderr
           ("Failed to update to new version!" +:+ newline +:+ newline
            +:+ "  You need to get precompiled version from GitHub releases." +:+ newline
            +:+ "  This version (" +:+ Version env +:+ "/" +:+ goVersion env
            +:+ ") is compiled from source code." +:+ newline +:+ newline)) ;
    ret (Some (New "failed to run self-update"))
  else
    d <~ DetectLatest env (Repository env) ;
    match d with
    | Failed err => ret (Some (Wrap err "error occurred while detecting version"))
    | Ok None =>
        ret (Some (Errorf ("latest version for " +:+ GOOS env +:+ "/" +:+ GOARCH env
                           +:+ " could not be found from GitHub repository")))
    | Ok (Some latest) =>
        le <~ Release_LessOrEqual latest (Version env) ;
        if le then
          _ <~ emit (EvStdout ("Current version (" +:+ Version env
                               +:+ ") is the latest" +:+ newline)) ;
          ret None
        else
          a <~ AskConfirm env ("Do you want to update to " +:+ Release_Version latest
                               +:+ "? (current version: " +:+ Version env +:+ ")") ;
          match a with
          | Failed err => ret (Some (Wrap err "cannot get answer from console"))
          | Ok yes =>
              if negb yes then ret None
              else
                e <~ os_Executable env ;
                match e with
                | Failed _ => ret (Some (New "could not locate executable path"))
                | Ok exe =>
                    u <~ UpdateTo env (AssetURL latest) (AssetName latest) exe ;
                    match u with
                    | Failed err =>
                        ret (Some (Wrap err "error occurred while updating binary"))
                    | Ok _ =>
                        _ <~ emit (EvStdout ("Successfully updated to version "
                                             +:+ Release_Version latest +:+ newline)) ;
                        messages <~ notices c env latest ;
                        _ <~ match messages with
                             | [] => ret tt
                             | _ => emit (EvStdout
                                      (newline +:+ "To use " +:+ quote
                                       +:+ Release_Version latest +:+ quote
                                       +:+ " version:" +:+ newline
                                       +:+ strings_Join newline messages +:+ newline))
                             end ;
                        ret None
                    end
                end
          end
    end.

(** ** The command *)

(** [newSelfUpdateCmd]: the table the command ships with.  The colour
    escapes of [info] are left out of the text. *)
Definition newSelfUpdateCmd (tag : bool) : selfUpdateCmd :=
  mkCmd tag
    [("0.1.11", "Run " +:+ quote +:+ "afx state refresh --force" +:+ quote +:+ " at first!")].

(** [RunE]: [selectTag] under the flag, [run] otherwise. *)
Definition RunE (c : selfUpdateCmd) (env : Env) : M (option error) :=
  match initError env with
  | Some err => ret (Some err)
  | None => if opt_tag c then selectTag c env else run c env
  end.

(** The world before the command runs. *)
Definition initial (files : gmap string file) : world := mkWorld files [].

(** The question [run] asks before it updates. *)
Definition confirmMessage (env : Env) (latest : Release) : string :=
  "Do you want to update to " +:+ Release_Version latest
  +:+ "? (current version: " +:+ Version env +:+ ")".

(** ** The two halves of [selectTag] *)





(** ** The notices as the spec words them *)

(** The table read as pairs of a version and its notice: the keys
    that are versions, each with its text. *)
Definition entries (c : selfUpdateCmd) : list (semver.Version * string) :=
  omap (fun kv => v ← semver.parse kv.1; Some (v, kv.2)) (annotation c).

(** Strictly above the current version and not above the target. *)
Definition inRange (current target v : semver.Version) : bool :=
  semver.GreaterThan v current && semver.LessOrEqual v target.

(** The line [run] prints for a notice. *)
Definition render (e : semver.Version * string) : string := "- " +:+ e.2.

(** The walk of [noticeLoop] without its effects: the versions whose
    message is appended. *)
Fixpoint walk (start stop : semver.Version) (vs : list semver.Version)
  : list semver.Version :=
  match vs with
  | [] => []
  | v :: vs' =>
      if semver.LessThan stop v then []
      else if semver.GreaterThan v start then v :: walk start stop vs'
           else walk start stop vs'
  end.

(** The walk only writes to the log. *)
Definition isLog (ev : event) : bool :=
  match ev with
  | EvLog _ => true
  | _ => false
  end.

(** ** The end of [run] *)

(** The line [run] prints once the binary is in place. *)
Definition successMessage (latest : Release) : string :=
  "Successfully updated to version " +:+ Release_Version latest +:+ newline.

(** The block of notices [run] prints when there is one at least. *)
Definition noticeBlock (latest : Release) (messages : list string) : string :=
  newline +:+ "To use " +:+ quote +:+ Release_Version latest +:+ quote
  +:+ " version:" +:+ newline +:+ strings_Join newline messages +:+ newline.

(** Lines 203-234 of [run] on their own: what follows a successful
    [UpdateTo]. *)
Definition afterUpdate (c : selfUpdateCmd) (env : Env) (latest : Release)
  : M (option error) :=
  _ <~ emit (EvStdout (successMessage latest)) ;
  messages <~ notices c env latest ;
  _ <~ match messages with
       | [] => ret tt
       | _ => emit (EvStdout (noticeBlock latest messages))
       end ;
  ret None.

(** The world of [w] with the events [evs] added to its trace. *)
Definition after (w : world) (evs : list event) : world :=
  mkWorld (fs w) (trace w ++ evs).

(** The explanation [run] gives to a build from source. *)
Definition unsetMessage (env : Env) : string :=
  "Failed to update to new version!" +:+ newline +:+ newline
  +:+ "  You need to get precompiled version from GitHub releases." +:+ newline
  +:+ "  This version (" +:+ Version env +:+ "/" +:+ goVersion env
  +:+ ") is compiled from source code." +:+ newline +:+ newline.

(** The errors [run] builds. *)
Definition runError (e : error) : Prop :=
  e = New "failed to run self-update"
  \/ (exists cause, e = Wrap cause "error occurred while detecting version")
  \/ (exists os arch, e = Errorf ("latest version for " +:+ os +:+ "/" +:+ arch
                                 +:+ " could not be found from GitHub repository"))
  \/ (exists cause, e = Wrap cause "cannot get answer from console")
  \/ e = New "could not locate executable path"
  \/ (exists cause, e = Wrap cause "error occurred while updating binary").

(** The notice the command ships with, for version 0.1.11. *)
Definition refreshNotice : string :=
  "Run " +:+ quote +:+ "afx state refresh --force" +:+ quote +:+ " at first!".

(** The address [selectTag] lists the releases from. *)
Definition releasesURL (env : Env) : string :=
  "https://api.github.com/repos/" +:+ Repository env +:+ "/releases".

(** ** Sample invocations *)

Module sample.

Definition exePath : string := "/usr/local/bin/afx".

Definition oldBinary : file := mkFile [Byte.x6f; Byte.x6c; Byte.x64] 493.

Definition newBytes : list Byte.byte := [Byte.x6e; Byte.x65; Byte.x77].

Definition files : gmap string file := {[ exePath := oldBinary ]}.

Definition assetName : string := "afx_linux_amd64.tar.gz".

Definition release_1_3_0 : Release :=
  mkRelease "https://example.org/afx_linux_amd64.tar.gz" assetName
    (semver.mkVersion 1 3 0 [] "").

Definition listing : list releaseJSON :=
  [mkReleaseJSON "v1.3.0"
     [mkAssetJSON assetName "https://example.org/afx_linux_amd64.tar.gz"]].

(** An invocation on linux/amd64 whose collaborators all succeed,
    except as the four arguments say. *)
Definition env (ver : string) (det : result (option Release))
    (conf : result bool) (flt : fault) : Env :=
  mkEnv ver "b4b4r07/afx" "linux" "amd64" "go1.17" "/home/u" None
    det conf (Some 0%nat) (Ok exePath) (Ok listing) (Ok newBytes) (Ok 0%nat)
    (Ok [("afx", mkFile newBytes 493)]) flt.

(** The same invocation when the archive unpacks to [entries]. *)
Definition envUnpacking (entries : list (string * file)) : Env :=
  mkEnv "0.1.10" "b4b4r07/afx" "linux" "amd64" "go1.17" "/home/u" None
    (Ok (Some release_1_3_0)) (Ok true) (Some 0%nat) (Ok exePath) (Ok listing)
    (Ok newBytes) (Ok 0%nat) (Ok entries) NoFault.



(** The table of section 8 of the spec. *)
Definition table : selfUpdateCmd :=
  mkCmd false [("2.0.0", "C"); ("1.2.0", "A"); ("1.3.0", "B")].

End sample.

(** * Properties *)

(** ** The version model at work *)

Example parse_1_2_3 :
  semver.parse "1.2.3" = Some (semver.mkVersion 1 2 3 [] "").
Proof. reflexivity. Qed.

Example parse_pre_meta :
  semver.parse "1.0.0-alpha.1+build.5" =
  Some (semver.mkVersion 1 0 0 [semver.Alphanum "alpha"; semver.Numeric 1] "build.5").
Proof. reflexivity. Qed.

Example parse_malformed :
  semver.parse "unset" = None /\ semver.parse "1.2" = None /\
  semver.parse "01.2.3" = None /\ semver.parse "1.2.3-" = None.
Proof. repeat split. Qed.

Example String_pre_meta :
  semver.String (semver.mkVersion 1 0 0 [semver.Alphanum "alpha"; semver.Numeric 1] "build.5")
  = "1.0.0-alpha.1+build.5".
Proof. reflexivity. Qed.

(** The chain of section 11 of the semantic versioning document:
    1.0.0-alpha < 1.0.0-alpha.1 < 1.0.0-alpha.beta < 1.0.0-beta
    < 1.0.0-beta.2 < 1.0.0-beta.11 < 1.0.0-rc.1 < 1.0.0. *)
Example precedence_chain :
  (fun texts =>
     match mapM semver.parse texts with
     | Some (v :: vs) =>
         forallb (fun p => semver.LessThan p.1 p.2) (zip (v :: vs) vs)
     | _ => false
     end)
    ["1.0.0-alpha"; "1.0.0-alpha.1"; "1.0.0-alpha.beta"; "1.0.0-beta";
     "1.0.0-beta.2"; "1.0.0-beta.11"; "1.0.0-rc.1"; "1.0.0"]
  = true.
Proof. vm_compute. reflexivity. Qed.

Example metadata_ignored :
  semver.Compare (semver.mkVersion 1 0 0 [] "a") (semver.mkVersion 1 0 0 [] "b") = Eq.
Proof. reflexivity. Qed.

(** ** Orders built from comparisons *)

Section CmpOrderFacts.
Context {A : Type} (cmp : A -> A -> comparison) `{!CmpOrder cmp}.

Lemma cmp_refl x : cmp x x = Eq.
Proof.
  pose proof (cmp_antisym (cmp := cmp) x x) as H.
  destruct (cmp x x); simpl in H; congruence.
Qed.

Lemma cmp_gt_lt x y : cmp x y = Gt <-> cmp y x = Lt.
Proof.
  rewrite (cmp_antisym (cmp := cmp) y x). destruct (cmp y x); simpl; split; congruence.
Qed.

(** The first difference decides: [Lt] chains through [lex]. *)
Lemma lex_lt_trans x y z (k1 k2 k3 : comparison) :
  (k1 = Lt -> k2 = Lt -> k3 = Lt) ->
  lex (cmp x y) k1 = Lt -> lex (cmp y z) k2 = Lt -> lex (cmp x z) k3 = Lt.
Proof.
  intros Hk H1 H2.
  destruct (cmp x y) eqn:Exy; simpl in H1; try discriminate.
  - apply cmp_eq in Exy. subst y.
    destruct (cmp x z); simpl in *; auto; discriminate.
  - destruct (cmp y z) eqn:Eyz; simpl in H2; try discriminate.
    + apply cmp_eq in Eyz. subst z. now rewrite Exy.
    + now rewrite (cmp_lt_trans (cmp := cmp) x y z Exy Eyz).
Qed.

Lemma lex_antisym x y (k1 k2 : comparison) :
  k2 = CompOpp k1 -> lex (cmp y x) k2 = CompOpp (lex (cmp x y) k1).
Proof.
  intros ->. rewrite (cmp_antisym (cmp := cmp) x y). now destruct (cmp x y).
Qed.

Lemma lex_eq x y (k : comparison) :
  lex (cmp x y) k = Eq <-> x = y /\ k = Eq.
Proof.
  split.
  - destruct (cmp x y) eqn:E; simpl; try discriminate.
    intros ->. split; [now apply cmp_eq | reflexivity].
  - intros [-> ->]. now rewrite cmp_refl.
Qed.
End CmpOrderFacts.

#[global] Instance N_CmpOrder : CmpOrder N.compare.
Proof.
  split.
  - intros x y. apply N.compare_antisym.
  - intros x y. apply N.compare_eq.
  - intros x y z. rewrite !N.compare_lt_iff. lia.
Qed.

#[global] Instance ascii_CmpOrder : CmpOrder Ascii.compare.
Proof.
  split.
  - intros x y. apply Ascii.compare_antisym.
  - intros x y. apply Ascii.compare_eq_iff.
  - intros x y z. unfold Ascii.compare. rewrite !N.compare_lt_iff. lia.
Qed.

Lemma string_compare_cons a x b y :
  String.compare (String.String a x) (String.String b y)
  = lex (Ascii.compare a b) (String.compare x y).
Proof. simpl. now destruct (Ascii.compare a b). Qed.

#[global] Instance string_CmpOrder : CmpOrder String.compare.
Proof.
  split.
  - intros x y. apply String.compare_antisym.
  - intros x y. apply String.compare_eq_iff.
  - intros x. induction x as [|a x IH]; intros [|b y] [|c z];
      rewrite ?string_compare_cons; simpl; try congruence.
    apply (lex_lt_trans Ascii.compare a b c). apply IH.
Qed.

#[global] Instance ident_CmpOrder : CmpOrder semver.compareIdent.
Proof.
  split.
  - intros [a|a] [b|b]; simpl; try reflexivity.
    + apply N.compare_antisym.
    + apply String.compare_antisym.
  - intros [a|a] [b|b]; simpl; try discriminate; intros H; f_equal;
      now apply cmp_eq in H.
  - intros [a|a] [b|b] [c|c]; simpl; try congruence.
    + apply (cmp_lt_trans (cmp := N.compare)).
    + apply (cmp_lt_trans (cmp := String.compare)).
Qed.

#[global] Instance idents_CmpOrder : CmpOrder semver.compareIdents.
Proof.
  split.
  - intros x. induction x as [|a x IH]; intros [|b y]; simpl; auto.
    apply (lex_antisym semver.compareIdent). apply IH.
  - intros x. induction x as [|a x IH]; intros [|b y]; simpl; try discriminate; auto.
    intros H. apply (lex_eq semver.compareIdent) in H as [-> H].
    f_equal. now apply IH.
  - intros x. induction x as [|a x IH]; intros [|b y] [|c z]; simpl; try congruence.
    apply (lex_lt_trans semver.compareIdent). apply IH.
Qed.

#[global] Instance prerelease_CmpOrder : CmpOrder semver.comparePrerelease.
Proof.
  split.
  - intros [|a x] [|b y]; try reflexivity.
    unfold semver.comparePrerelease. apply (cmp_antisym (cmp := semver.compareIdents)).
  - intros [|a x] [|b y]; try discriminate; auto.
    unfold semver.comparePrerelease. apply (cmp_eq (cmp := semver.compareIdents)).
  - intros [|a x] [|b y] [|c z]; try discriminate; auto.
    unfold semver.comparePrerelease. apply (cmp_lt_trans (cmp := semver.compareIdents)).
Qed.

(** ** The version comparator *)

Lemma Compare_antisym v o : semver.Compare o v = CompOpp (semver.Compare v o).
Proof.
  unfold semver.Compare.
  repeat apply (lex_antisym N.compare).
  apply (cmp_antisym (cmp := semver.comparePrerelease)).
Qed.

Lemma Compare_eq v o :
  semver.Compare v o = Eq <-> semver.precedence v = semver.precedence o.
Proof.
  unfold semver.Compare, semver.precedence.
  rewrite !(lex_eq N.compare). split.
  - intros (-> & -> & -> & H). apply cmp_eq in H. now rewrite H.
  - intros [= -> -> -> ->]. repeat split. apply (cmp_refl semver.comparePrerelease).
Qed.

Lemma Compare_refl v : semver.Compare v v = Eq.
Proof. now apply Compare_eq. Qed.

Lemma Compare_lt_trans a b c :
  semver.Compare a b = Lt -> semver.Compare b c = Lt -> semver.Compare a c = Lt.
Proof.
  unfold semver.Compare.
  repeat apply (lex_lt_trans N.compare).
  apply (cmp_lt_trans (cmp := semver.comparePrerelease)).
Qed.

(** [Compare] reads its arguments through [precedence] only. *)
Lemma Compare_precedence_l a a' b :
  semver.precedence a = semver.precedence a' -> semver.Compare a b = semver.Compare a' b.
Proof. unfold semver.Compare, semver.precedence. now intros [= -> -> -> ->]. Qed.

Lemma Compare_precedence_r a b b' :
  semver.precedence b = semver.precedence b' -> semver.Compare a b = semver.Compare a b'.
Proof. unfold semver.Compare, semver.precedence. now intros [= -> -> -> ->]. Qed.

Lemma LessOrEqual_trans a b c :
  semver.LessOrEqual a b = true -> semver.LessOrEqual b c = true ->
  semver.LessOrEqual a c = true.
Proof.
  unfold semver.LessOrEqual.
  destruct (semver.Compare a b) eqn:Eab; try discriminate; intros _;
    destruct (semver.Compare b c) eqn:Ebc; try discriminate; intros _.
  - apply Compare_eq in Eab. rewrite (Compare_precedence_l a b c Eab). now rewrite Ebc.
  - apply Compare_eq in Eab. rewrite (Compare_precedence_l a b c Eab). now rewrite Ebc.
  - apply Compare_eq in Ebc. rewrite <- (Compare_precedence_r a b c Ebc). now rewrite Eab.
  - now rewrite (Compare_lt_trans a b c Eab Ebc).
Qed.

Lemma LessOrEqual_total a b :
  semver.LessOrEqual a b = true \/ semver.LessOrEqual b a = true.
Proof.
  unfold semver.LessOrEqual. rewrite (Compare_antisym a b).
  destruct (semver.Compare a b); simpl; auto.
Qed.

(** C8: the comparison of versions is a total order on the precedence
    fields: [Compare] is reflexive, swapping its arguments flips the
    answer, [Eq] holds exactly between versions of the same
    (major, minor, patch, pre-release), [Lt] and the non-strict order
    are transitive, two versions each below the other compare equal,
    any two versions are comparable, and [LessOrEqual], [GreaterThan]
    and [LessThan] are the readings "not greater", "greater" and
    "less" of [Compare]. *)
Theorem Compare_total_order (a b c : semver.Version) :
  semver.Compare a a = Eq
  /\ semver.Compare b a = CompOpp (semver.Compare a b)
  /\ (semver.Compare a b = Eq <-> semver.precedence a = semver.precedence b)
  /\ (semver.Compare a b = Lt -> semver.Compare b c = Lt -> semver.Compare a c = Lt)
  /\ (semver.LessOrEqual a b = true -> semver.LessOrEqual b c = true ->
      semver.LessOrEqual a c = true)
  /\ (semver.LessOrEqual a b = true -> semver.LessOrEqual b a = true ->
      semver.Compare a b = Eq)
  /\ (semver.LessOrEqual a b = true \/ semver.LessOrEqual b a = true)
  /\ (semver.LessOrEqual a b = true <-> semver.Compare a b <> Gt)
  /\ (semver.GreaterThan a b = true <-> semver.Compare a b = Gt)
  /\ (semver.LessThan a b = true <-> semver.Compare a b = Lt)
  /\ semver.GreaterThan a b = negb (semver.LessOrEqual a b).
Proof.
  repeat match goal with |- _ /\ _ => split end.
  - apply Compare_refl.
  - apply Compare_antisym.
  - apply Compare_eq.
  - apply Compare_lt_trans.
  - apply LessOrEqual_trans.
  - unfold semver.LessOrEqual. rewrite (Compare_antisym a b).
    destruct (semver.Compare a b); simpl; congruence.
  - apply LessOrEqual_total.
  - unfold semver.LessOrEqual. destruct (semver.Compare a b); split; congruence.
  - unfold semver.GreaterThan. destruct (semver.Compare a b); split; congruence.
  - unfold semver.LessThan. destruct (semver.Compare a b); split; congruence.
  - unfold semver.GreaterThan, semver.LessOrEqual. now destruct (semver.Compare a b).
Qed.

(** ** Printing a parsed version gives back the text *)

Lemma append_nil (s : string) : "" +:+ s = s.
Proof. reflexivity. Qed.

Lemma append_cons (a : ascii) (s t : string) :
  String.String a s +:+ t = String.String a (s +:+ t).
Proof. reflexivity. Qed.

Lemma append_assoc (a b c : string) : (a +:+ b) +:+ c = a +:+ (b +:+ c).
Proof.
  induction a as [|x a IH]; rewrite ?append_nil, ?append_cons; [reflexivity|].
  now rewrite IH.
Qed.

Lemma cut_spec c s l r :
  semver.cut c s = (l, r) ->
  s = l +:+ match r with Some t => String.String c t | None => "" end.
Proof.
  revert l r. induction s as [|a s IH]; simpl; intros l r.
  - now intros [= <- <-].
  - destruct (Ascii.eqb_spec a c) as [->|Hne].
    + now intros [= <- <-].
    + destruct (semver.cut c s) as [l' r'] eqn:E. intros [= <- <-].
      rewrite append_cons. f_equal. now apply IH.
Qed.

Lemma split_nonempty c s : semver.split c s <> [].
Proof.
  destruct s as [|a s]; simpl; [discriminate|].
  destruct (Ascii.eqb a c); [discriminate|].
  destruct (semver.split c s); discriminate.
Qed.

Lemma join_cons sep s l :
  l <> [] -> strings_Join sep (s :: l) = s +:+ sep +:+ strings_Join sep l.
Proof. destruct l; [congruence | reflexivity]. Qed.

Lemma join_split c s :
  strings_Join (String.String c "") (semver.split c s) = s.
Proof.
  induction s as [|a s IH]; simpl; [reflexivity|].
  destruct (Ascii.eqb_spec a c) as [->|Hne].
  - rewrite join_cons by apply split_nonempty.
    rewrite append_nil, append_cons, append_nil. now rewrite IH.
  - pose proof (split_nonempty c s) as Hs.
    destruct (semver.split c s) as [|w ws]; [congruence|].
    destruct ws as [|w' ws].
    + simpl in *. now rewrite IH.
    + rewrite join_cons by discriminate.
      rewrite join_cons in IH by discriminate.
      rewrite append_cons. f_equal. exact IH.
Qed.

Lemma parseNumeric_decimal s n : semver.parseNumeric s = Some n -> semver.decimal n = s.
Proof.
  unfold semver.parseNumeric, semver.decimal.
  destruct s as [|a s]; [discriminate|].
  intros H.
  assert (Hu : exists d, NilZero.uint_of_string (String.String a s) = Some d
                         /\ n = N.of_uint d /\ Decimal.unorm d = d).
  { destruct (NilZero.uint_of_string (String.String a s)) as [d|] eqn:Ed.
    - exists d. split; [reflexivity|].
      assert (Hn : n = N.of_uint d).
      { destruct a as [[|] [|] [|] [|] [|] [|] [|] [|]]; destruct s;
          try discriminate H;
          destruct (semver.allChars semver.isDigit _) in H; simpl in H; congruence. }
      split; [exact Hn|].
      simpl in Ed.
      destruct (NilEmpty.uint_of_string s) as [d'|] eqn:Ed'; [|discriminate].
      apply uint_of_char_spec in Ed.
      destruct Ed as [[-> ->]|Ed].
      + destruct s; [|discriminate H]. simpl in Ed'. injection Ed' as <-. reflexivity.
      + intuition subst; reflexivity.
    - exfalso.
      destruct a as [[|] [|] [|] [|] [|] [|] [|] [|]]; destruct s;
        try discriminate H;
        destruct (semver.allChars semver.isDigit _) in H; simpl in H; congruence. }
  destruct Hu as (d & Hd & -> & Hnorm).
  rewrite DecimalN.Unsigned.to_of, Hnorm.
  now apply NilZero.sus.
Qed.

Lemma parseIdent_identString s i : semver.parseIdent s = Some i -> semver.identString i = s.
Proof.
  unfold semver.parseIdent. destruct s as [|a s]; [discriminate|].
  destruct (semver.allChars semver.isDigit _).
  - destruct (semver.parseNumeric _) as [n|] eqn:E; [|discriminate].
    intros [= <-]. simpl. now apply parseNumeric_decimal.
  - destruct (semver.allChars semver.isIdentChar _); [|discriminate].
    now intros [= <-].
Qed.

Lemma mapM_parseIdent l p :
  mapM semver.parseIdent l = Some p -> map semver.identString p = l.
Proof.
  intros H. apply mapM_Some_1 in H.
  induction H as [|s i l p Hi _ IH]; simpl; [reflexivity|].
  f_equal; [now apply parseIdent_identString | exact IH].
Qed.

Lemma String_parse s v : semver.parse s = Some v -> semver.String v = s.
Proof.
  unfold semver.parse.
  destruct (semver.cut "+" s) as [rest meta] eqn:E1.
  destruct (semver.cut "-" rest) as [core prerelease] eqn:E2.
  destruct (semver.split "." core) as [|a [|b [|c [|? ?]]]] eqn:E3; try discriminate.
  destruct (semver.parseNumeric a) as [ma|] eqn:Ea; [|discriminate].
  destruct (semver.parseNumeric b) as [mi|] eqn:Eb; [|discriminate].
  destruct (semver.parseNumeric c) as [pa|] eqn:Ec; [|discriminate].
  simpl.
  apply parseNumeric_decimal in Ea, Eb, Ec.
  apply cut_spec in E1, E2.
  pose proof (join_split "." core) as Hcore. rewrite E3 in Hcore. simpl in Hcore.
  remember (match prerelease with
            | None => Some []
            | Some t => mapM semver.parseIdent (semver.split "." t)
            end) as P eqn:EP.
  destruct P as [p|]; [|discriminate]. symmetry in EP. simpl.
  remember (match meta with
            | None => Some ""
            | Some t => if forallb semver.validBuildIdent (semver.split "." t)
                        then Some t else None
            end) as Q eqn:EQ.
  destruct Q as [m|]; [|discriminate]. symmetry in EQ. simpl.
  intros [= <-]. unfold semver.String. simpl.
  assert (Hpre :
    match p with
    | [] => ""
    | _ => "-" +:+ strings_Join "." (map semver.identString p)
    end = match prerelease with Some t => String.String "-" t | None => "" end).
  { destruct prerelease as [t|].
    - apply mapM_parseIdent in EP.
      pose proof (split_nonempty "." t) as Hne.
      rewrite EP, join_split.
      destruct p; [simpl in EP; congruence | reflexivity].
    - now injection EP as <-. }
  assert (Hmeta :
    match m with
    | "" => ""
    | String.String x m' => "+" +:+ String.String x m'
    end = match meta with Some t => String.String "+" t | None => "" end).
  { destruct meta as [t|].
    - destruct (forallb _ _) eqn:Ef; [|discriminate]. injection EQ as <-.
      destruct t; [discriminate Ef | reflexivity].
    - now injection EQ as <-. }
  rewrite Hpre, Hmeta, Ea, Eb, Ec.
  rewrite E1, E2, <- Hcore.
  now rewrite !append_assoc.
Qed.

Lemma parse_String s v : semver.parse s = Some v -> semver.parse (semver.String v) = Some v.
Proof. intros H. now rewrite (String_parse s v H). Qed.

(** ** The binary installer *)

Lemma tempPath_fresh target : tempPath target <> target.
Proof.
  unfold tempPath. induction target as [|a t IH]; simpl.
  - discriminate.
  - intros [= H]. now apply IH.
Qed.

(** C1: an installation never leaves a partial file at the target.
    Whatever step is made to fail and whatever the file system held,
    the installer returns (it does not panic); when it returns an
    error the target holds what it held before, bytes and mode; and
    when it succeeds the target holds exactly the new bytes under the
    mode of the original file. *)
Theorem install_atomic (flt : fault) (src : list Byte.byte) (target : string) (w : world) :
  let old := fs w !! target in
  let mode := match old with Some f => perm f | None => defaultPerm end in
  let r := install flt src target w in
  (exists res, fst r = Returns res)
  /\ (forall err, fst r = Returns (Failed err) -> fs (snd r) !! target = old)
  /\ (fst r = Returns (Ok tt) -> fs (snd r) !! target = Some (mkFile src mode))
  /\ (fs (snd r) !! target = old \/ fs (snd r) !! target = Some (mkFile src mode))
  /\ trace (snd r) = trace w.
Proof.
  pose proof (tempPath_fresh target) as Hne.
  unfold install, bind, readFile, writeFile, removeFile, ret.
  destruct flt, src; simpl;
    repeat match goal with |- _ /\ _ => split end;
    eauto; try discriminate; intros;
    rewrite ?lookup_insert_eq, ?lookup_insert_ne, ?lookup_delete_ne by done;
    auto.
Qed.

(** ** Running the monad *)

Lemma bind_returns {A B} (m : M A) (k : A -> M B) w a w' :
  m w = (Returns a, w') -> bind m k w = k a w'.
Proof. unfold bind. now intros ->. Qed.

Lemma bind_panics {A B} (m : M A) (k : A -> M B) w msg w' :
  m w = (Panics msg, w') -> bind m k w = (Panics msg, w').
Proof. unfold bind. now intros ->. Qed.

Lemma MustParse_some s v w : semver.parse s = Some v -> MustParse s w = (Returns v, w).
Proof. unfold MustParse. now intros ->. Qed.

Lemma MustParse_none s w :
  semver.parse s = None -> MustParse s w = (Panics "Invalid Semantic Version", w).
Proof. unfold MustParse. now intros ->. Qed.

Lemma world_eta w : mkWorld (fs w) (trace w) = w.
Proof. now destruct w. Qed.

Lemma unset_not_parsed : semver.parse "unset" = None.
Proof. reflexivity. Qed.

Lemma parsed_not_unset s v : semver.parse s = Some v -> String.eqb s "unset" = false.
Proof.
  intros H. apply String.eqb_neq. intros ->. discriminate.
Qed.

(** Unfold the monad and the collaborators that only record an event
    and hand back the scripted answer. *)
Ltac exec :=
  unfold DetectLatest, AskConfirm, AskSelect, os_Executable, http_Get,
    Release_LessOrEqual, bind, emit, ret, panic; simpl.

(** ** Automatic mode *)

(** C2, as amended: in automatic mode the sentinel stops the command at
    once.  With [Version] equal to "unset", [run] writes its
    explanation to standard error and returns the error "failed to run
    self-update"; that one event is all it does, so no network call,
    no prompt and no installer, and the file system is as it was. *)
Theorem run_unset_refuses (c : selfUpdateCmd) (env : Env) (w : world) :
  Version env = "unset" ->
  exists text,
    run c env w = (Returns (Some (New "failed to run self-update")),
                   mkWorld (fs w) (trace w ++ [EvStderr text]))
    /\ isNetwork (EvStderr text) = false
    /\ isPrompt (EvStderr text) = false
    /\ isInstall (EvStderr text) = false.
Proof.
  intros H. unfold run. rewrite H. simpl. exec.
  eexists. repeat split.
Qed.

Lemma run_unset_refuses_witness :
  exists text,
    run (newSelfUpdateCmd false)
        (sample.env "unset" (Ok (Some sample.release_1_3_0)) (Ok true) NoFault)
        (initial sample.files)
    = (Returns (Some (New "failed to run self-update")),
       mkWorld sample.files [EvStderr text])
    /\ isNetwork (EvStderr text) = false
    /\ isPrompt (EvStderr text) = false
    /\ isInstall (EvStderr text) = false.
Proof.
  exact (run_unset_refuses (newSelfUpdateCmd false)
           (sample.env "unset" (Ok (Some sample.release_1_3_0)) (Ok true) NoFault)
           (initial sample.files) eq_refl).
Defined.

(** C2, the claim as stated fails in interactive mode: [selectTag]
    never looks at [Version].  Built from source ("unset") and started
    with [--select], the command lists the releases over the network,
    downloads the chosen asset, invokes the installer and returns
    success with the executable replaced. *)
Lemma selectTag_unset_updates :
  let env := sample.env "unset" (Ok (Some sample.release_1_3_0)) (Ok true) NoFault in
  let r := RunE (newSelfUpdateCmd true) env (initial sample.files) in
  Version env = "unset"
  /\ fst r = Returns None
  /\ trace (snd r)
     = [EvHttpGet "https://api.github.com/repos/b4b4r07/afx/releases";
        EvAskSelect "Choose a tag you upgrade/downgrade:" ["v1.3.0"];
        EvDownload [mkAsset sample.assetName "/home/u/.afx"
                      "/home/u/.afx/afx_linux_amd64.tar.gz"
                      "https://example.org/afx_linux_amd64.tar.gz"];
        EvUnarchive (mkAsset sample.assetName "/home/u/.afx"
                       "/home/u/.afx/afx_linux_amd64.tar.gz"
                       "https://example.org/afx_linux_amd64.tar.gz");
        EvOpen "/home/u/.afx/afx";
        EvExecutable;
        EvApply sample.exePath]
  /\ fs (snd r) !! sample.exePath = Some (mkFile sample.newBytes 493).
Proof. vm_compute. repeat split. Qed.

(** C4: in automatic mode a detected release that is not newer than
    the running version ends the command at once.  [run] returns no
    error after the detection and one line on standard output saying
    that the current version is the latest: no prompt, no installer,
    the file system as it was. *)
Theorem run_up_to_date (c : selfUpdateCmd) (env : Env) (w : world)
    (latest : Release) (current : semver.Version) :
  semver.parse (Version env) = Some current ->
  detected env = Ok (Some latest) ->
  semver.LessOrEqual (version latest) current = true ->
  run c env w
  = (Returns None,
     mkWorld (fs w)
       (trace w ++ [EvDetectLatest (Repository env);
                    EvStdout ("Current version (" +:+ Version env
                              +:+ ") is the latest" +:+ newline)])).
Proof.
  intros Hv Hd Hle. unfold run.
  rewrite (parsed_not_unset _ _ Hv). exec.
  rewrite Hd. unfold MustParse. rewrite Hv. exec. rewrite Hle. simpl.
  now rewrite <- app_assoc.
Qed.

Lemma run_up_to_date_witness :
  run (newSelfUpdateCmd false)
      (sample.env "1.3.0" (Ok (Some sample.release_1_3_0)) (Ok true) NoFault)
      (initial sample.files)
  = (Returns None,
     mkWorld sample.files
       [EvDetectLatest "b4b4r07/afx";
        EvStdout ("Current version (1.3.0) is the latest" +:+ newline)]).
Proof.
  exact (run_up_to_date (newSelfUpdateCmd false)
           (sample.env "1.3.0" (Ok (Some sample.release_1_3_0)) (Ok true) NoFault)
           (initial sample.files) sample.release_1_3_0
           (semver.mkVersion 1 3 0 [] "") eq_refl eq_refl eq_refl).
Defined.

(** C6: in automatic mode "not found" is an outcome of its own.  When
    the detection reports no release for the platform, [run] returns
    the error whose text names the operating system and the
    architecture, having done nothing but the detection; when the
    detection itself fails, [run] returns that failure wrapped as
    "error occurred while detecting version", a different error.  In
    neither case is there a prompt or an installer call. *)
Theorem run_not_found (c : selfUpdateCmd) (env : Env) (w : world) :
  Version env <> "unset" ->
  (detected env = Ok None ->
   run c env w
   = (Returns (Some (Errorf ("latest version for " +:+ GOOS env +:+ "/" +:+ GOARCH env
                             +:+ " could not be found from GitHub repository"))),
      mkWorld (fs w) (trace w ++ [EvDetectLatest (Repository env)])))
  /\ (forall err, detected env = Failed err ->
      run c env w
      = (Returns (Some (Wrap err "error occurred while detecting version")),
         mkWorld (fs w) (trace w ++ [EvDetectLatest (Repository env)])))
  /\ (forall err msg, Errorf msg <> Wrap err "error occurred while detecting version").
Proof.
  intros Hv. apply String.eqb_neq in Hv.
  repeat split.
  - intros Hd. unfold run. rewrite Hv. exec. now rewrite Hd.
  - intros err Hd. unfold run. rewrite Hv. exec. now rewrite Hd.
  - discriminate.
Qed.

Lemma run_not_found_witness :
  run (newSelfUpdateCmd false)
      (sample.env "0.1.10" (Ok None) (Ok true) NoFault)
      (initial sample.files)
  = (Returns (Some (Errorf
       "latest version for linux/amd64 could not be found from GitHub repository")),
     mkWorld sample.files [EvDetectLatest "b4b4r07/afx"]).
Proof.
  refine (proj1 (run_not_found (newSelfUpdateCmd false)
                   (sample.env "0.1.10" (Ok None) (Ok true) NoFault)
                   (initial sample.files) _) eq_refl).
  discriminate.
Defined.

(** C7, as amended: in automatic mode, once a newer release has been
    detected, an answer "no" to the confirmation ends the command
    without error, and a confirmation that could not be answered (the
    prompt was interrupted or failed) ends it with the error "cannot
    get answer from console" around the prompt's own error.  Either
    way the command has done the detection and the prompt only: the
    installer is not invoked and the file system is as it was. *)
Theorem run_declined (c : selfUpdateCmd) (env : Env) (w : world)
    (latest : Release) (current : semver.Version) :
  semver.parse (Version env) = Some current ->
  detected env = Ok (Some latest) ->
  semver.LessOrEqual (version latest) current = false ->
  (confirmed env = Ok false ->
   run c env w
   = (Returns None,
      mkWorld (fs w)
        (trace w ++ [EvDetectLatest (Repository env);
                     EvAskConfirm (confirmMessage env latest)])))
  /\ (forall err, confirmed env = Failed err ->
      run c env w
      = (Returns (Some (Wrap err "cannot get answer from console")),
         mkWorld (fs w)
           (trace w ++ [EvDetectLatest (Repository env);
                        EvAskConfirm (confirmMessage env latest)]))).
Proof.
  intros Hv Hd Hle.
  assert (Hrun : run c env w
    = match confirmed env with
      | Failed err => (Returns (Some (Wrap err "cannot get answer from console")),
                       mkWorld (fs w)
                         (trace w ++ [EvDetectLatest (Repository env);
                                      EvAskConfirm (confirmMessage env latest)]))
      | Ok false => (Returns None,
                     mkWorld (fs w)
                       (trace w ++ [EvDetectLatest (Repository env);
                                    EvAskConfirm (confirmMessage env latest)]))
      | Ok true => run c env w
      end).
  { unfold run at 1. rewrite (parsed_not_unset _ _ Hv). exec.
    rewrite Hd. unfold MustParse. rewrite Hv. exec. rewrite Hle. simpl.
    rewrite <- app_assoc. simpl. fold (confirmMessage env latest).
    destruct (confirmed env) as [[|]|err] eqn:Hc; simpl; try reflexivity.
    unfold run. rewrite (parsed_not_unset _ _ Hv). exec.
    rewrite Hd. unfold MustParse. rewrite Hv. exec. rewrite Hle. simpl.
    rewrite Hc. simpl. rewrite <- !app_assoc. reflexivity. }
  split.
  - intros Hc. rewrite Hrun, Hc. reflexivity.
  - intros err Hc. rewrite Hrun, Hc. reflexivity.
Qed.

Lemma run_declined_witness :
  run (newSelfUpdateCmd false)
      (sample.env "0.1.10" (Ok (Some sample.release_1_3_0)) (Ok false) NoFault)
      (initial sample.files)
  = (Returns None,
     mkWorld sample.files
       [EvDetectLatest "b4b4r07/afx";
        EvAskConfirm "Do you want to update to 1.3.0? (current version: 0.1.10)"]).
Proof.
  exact (proj1 (run_declined (newSelfUpdateCmd false)
                  (sample.env "0.1.10" (Ok (Some sample.release_1_3_0)) (Ok false) NoFault)
                  (initial sample.files) sample.release_1_3_0
                  (semver.mkVersion 0 1 10 [] "") eq_refl eq_refl eq_refl) eq_refl).
Defined.

(** C7, the claim as stated fails when the prompt is cancelled: with
    the confirmation interrupted, [run] returns an error, not the
    no-op success. *)
Lemma run_prompt_cancelled_is_error :
  run (newSelfUpdateCmd false)
      (sample.env "0.1.10" (Ok (Some sample.release_1_3_0))
         (Failed (Foreign "interrupt")) NoFault)
      (initial sample.files)
  = (Returns (Some (Wrap (Foreign "interrupt") "cannot get answer from console")),
     mkWorld sample.files
       [EvDetectLatest "b4b4r07/afx";
        EvAskConfirm "Do you want to update to 1.3.0? (current version: 0.1.10)"]).
Proof. vm_compute. reflexivity. Qed.

(** C10, as amended: the notice walk does parse the current version
    again with the parse that panics, once per annotation version, but
    a build whose version is neither the sentinel nor a semantic
    version never gets that far.  For such a build [run] does the
    detection and nothing else, so the installer is not invoked and
    the file system is as it was; and when the detection finds a
    release, the comparison of that release with the current version
    panics, ahead of the prompt and of the installer. *)
Theorem run_invalid_version_never_installs (c : selfUpdateCmd) (env : Env) (w : world) :
  Version env <> "unset" ->
  semver.parse (Version env) = None ->
  snd (run c env w) = mkWorld (fs w) (trace w ++ [EvDetectLatest (Repository env)])
  /\ (forall latest, detected env = Ok (Some latest) ->
      fst (run c env w) = Panics "Invalid Semantic Version")
  /\ (forall latest v vs messages w0,
      noticeLoop c env latest (v :: vs) messages w0
      = (Panics "Invalid Semantic Version", w0)).
Proof.
  intros Hu Hv. apply String.eqb_neq in Hu.
  repeat split.
  - unfold run. rewrite Hu. exec.
    destruct (detected env) as [[latest|]|err]; simpl; try reflexivity.
    unfold MustParse. now rewrite Hv.
  - intros latest Hd. unfold run. rewrite Hu. exec. rewrite Hd.
    unfold MustParse. now rewrite Hv.
  - intros latest v vs messages w0. simpl.
    apply bind_panics. now apply MustParse_none.
Qed.

Lemma run_invalid_version_never_installs_witness :
  snd (run (newSelfUpdateCmd false)
         (sample.env "dev" (Ok (Some sample.release_1_3_0)) (Ok true) NoFault)
         (initial sample.files))
  = mkWorld sample.files [EvDetectLatest "b4b4r07/afx"].
Proof.
  refine (proj1 (run_invalid_version_never_installs (newSelfUpdateCmd false)
                   (sample.env "dev" (Ok (Some sample.release_1_3_0)) (Ok true) NoFault)
                   (initial sample.files) _ eq_refl)).
  discriminate.
Defined.

(** C10, the claim as stated fails: built with the version "dev", with
    a release detected and every collaborator willing, the command
    panics right after the detection.  The installer has not been
    invoked and the executable is the old one. *)
Lemma run_dev_panics_before_install :
  let r := run (newSelfUpdateCmd false)
             (sample.env "dev" (Ok (Some sample.release_1_3_0)) (Ok true) NoFault)
             (initial sample.files) in
  fst r = Panics "Invalid Semantic Version"
  /\ trace (snd r) = [EvDetectLatest "b4b4r07/afx"]
  /\ existsb isInstall (trace (snd r)) = false
  /\ fs (snd r) !! sample.exePath = Some sample.oldBinary.
Proof. vm_compute. repeat split. Qed.

(** ** The upgrade notices *)

#[global] Instance versionLe_trans : Transitive versionLe.
Proof. intros a b c. apply LessOrEqual_trans. Qed.

#[global] Instance versionLe_total : Total versionLe.
Proof. intros a b. apply LessOrEqual_total. Qed.

Lemma LessThan_LessOrEqual s v u :
  semver.LessThan s v = true -> versionLe v u -> semver.LessThan s u = true.
Proof.
  unfold semver.LessThan, versionLe, semver.LessOrEqual.
  destruct (semver.Compare s v) eqn:Esv; try discriminate. intros _.
  destruct (semver.Compare v u) eqn:Evu; try discriminate; intros _.
  - apply Compare_eq in Evu. now rewrite <- (Compare_precedence_r s v u Evu), Esv.
  - now rewrite (Compare_lt_trans s v u Esv Evu).
Qed.

Lemma LessThan_not_LessOrEqual s v :
  semver.LessOrEqual v s = negb (semver.LessThan s v).
Proof.
  unfold semver.LessThan, semver.LessOrEqual.
  rewrite (Compare_antisym s v). now destruct (semver.Compare s v).
Qed.

Lemma filter_none {A} (P : A -> Prop) `{forall x, Decision (P x)} (l : list A) :
  Forall (fun x => ~ P x) l -> filter P l = [].
Proof.
  induction 1 as [|x l Hx _ IH]; [reflexivity|].
  now rewrite filter_cons_False.
Qed.

(** On an ascending list, stopping at the first version above the
    target loses nothing: the walk is the filter. *)
Lemma walk_filter start stop vs :
  StronglySorted versionLe vs ->
  walk start stop vs = filter (fun v => inRange start stop v = true) vs.
Proof.
  induction 1 as [|v vs Hs IH Hv]; simpl; [reflexivity|].
  unfold inRange in *.
  destruct (semver.LessThan stop v) eqn:Elt.
  - symmetry. apply filter_none. constructor.
    + rewrite LessThan_not_LessOrEqual, Elt, andb_false_r. discriminate.
    + eapply Forall_impl; [exact Hv|]. intros u Hu. simpl.
      rewrite LessThan_not_LessOrEqual, (LessThan_LessOrEqual stop v u Elt Hu),
        andb_false_r. discriminate.
  - rewrite filter_cons, LessThan_not_LessOrEqual, Elt, andb_true_r, IH.
    destruct (semver.GreaterThan v start); case_decide; congruence.
Qed.

Lemma parseKeys_returns keys vs acc w :
  Forall2 (fun k v => semver.parse k = Some v) keys vs ->
  parseKeys keys acc w = (Returns (acc ++ vs)%list, w).
Proof.
  intros H. revert acc.
  induction H as [|k v keys vs Hk _ IH]; intros acc; simpl.
  - unfold ret. now rewrite app_nil_r.
  - rewrite (bind_returns _ _ _ _ _ (MustParse_some k v w Hk)).
    rewrite IH. now rewrite <- app_assoc.
Qed.

Lemma parseKeys_panics keys acc w :
  Exists (fun k => semver.parse k = None) keys ->
  parseKeys keys acc w = (Panics "Invalid Semantic Version", w).
Proof.
  intros H. revert acc.
  induction keys as [|k keys IH]; intros acc; [now apply Exists_nil in H|].
  simpl. destruct (semver.parse k) as [v|] eqn:Ek.
  - rewrite (bind_returns _ _ _ _ _ (MustParse_some k v w Ek)).
    apply IH. apply Exists_cons in H as [H|H]; [congruence | exact H].
  - apply bind_panics. now apply MustParse_none.
Qed.

Lemma noticeLoop_returns c env latest start stop :
  semver.parse (Version env) = Some start ->
  semver.parse (Release_Version latest) = Some stop ->
  forall vs messages w,
  exists logs,
    noticeLoop c env latest vs messages w
    = (Returns (messages
                ++ map (fun v => "- " +:+ mapIndex (annotation c) (semver.String v))
                     (walk start stop vs))%list,
       mkWorld (fs w) (trace w ++ logs))
    /\ forallb isLog logs = true.
Proof.
  intros Hstart Hstop vs.
  induction vs as [|v vs IH]; intros messages w; simpl.
  - exists []. unfold ret. rewrite !app_nil_r. now rewrite world_eta.
  - rewrite (bind_returns _ _ _ _ _ (MustParse_some _ _ w Hstart)).
    rewrite (bind_returns _ _ _ _ _ (MustParse_some _ _ w Hstop)).
    unfold bind at 1, emit at 1. unfold bind at 1, emit at 1. simpl.
    destruct (semver.LessThan stop v).
    + eexists. unfold ret. simpl. rewrite app_nil_r, <- app_assoc. split; reflexivity.
    + destruct (semver.GreaterThan v start);
        match goal with
        | |- context [noticeLoop _ _ _ vs ?m ?w'] =>
            destruct (IH m w') as (logs & -> & Hlogs)
        end;
        eexists; simpl; rewrite <- !app_assoc; simpl;
        (split; [reflexivity | exact Hlogs]).
Qed.

Lemma mapIndex_lookup m k t :
  NoDup (map fst m) -> (k, t) ∈ m -> mapIndex m k = t.
Proof.
  induction m as [|[k' t'] m IH]; simpl; intros Hnd Hin.
  - now apply elem_of_nil in Hin.
  - apply NoDup_cons in Hnd as [Hk' Hnd].
    apply elem_of_cons in Hin as [[= <- <-]|Hin].
    + now rewrite String.eqb_refl.
    + destruct (String.eqb_spec k' k) as [->|Hne]; [|now apply IH].
      exfalso. apply Hk'. apply list_elem_of_fmap. now exists (k, t).
Qed.

Lemma filter_fmap {A B} (f : A -> B) (P : B -> Prop) `{forall x, Decision (P x)}
    (l : list A) :
  filter P (f <$> l) = f <$> filter (fun x => P (f x)) l.
Proof.
  induction l as [|x l IH]; [reflexivity|].
  rewrite fmap_cons, !filter_cons, IH. now destruct (decide (P (f x))).
Qed.

Lemma StronglySorted_filter {A} (R : relation A) (P : A -> Prop)
    `{forall x, Decision (P x)} (l : list A) :
  StronglySorted R l -> StronglySorted R (filter P l).
Proof.
  induction 1 as [|x l Hs IH Hx]; [constructor|].
  rewrite filter_cons. destruct (decide (P x)); [|exact IH].
  constructor; [exact IH|].
  apply Forall_forall. intros y Hy. apply list_elem_of_filter in Hy as [_ Hy].
  rewrite Forall_forall in Hx. now apply Hx.
Qed.

(** With distinct keys, a parsed key finds its own text again. *)
Lemma entries_fmap_sub (full m : list (string * string)) vs :
  NoDup (map fst full) ->
  (forall e, e ∈ m -> e ∈ full) ->
  Forall2 (fun k v => semver.parse k = Some v) (map fst m) vs ->
  (fun v => (v, mapIndex full (semver.String v))) <$> vs
  = omap (fun kv => v ← semver.parse kv.1; Some (v, kv.2)) m.
Proof.
  intros Hnd. revert vs.
  induction m as [|[k t] m IH]; intros vs Hsub Hvs; simpl in *.
  - now apply Forall2_nil_inv_l in Hvs as ->.
  - apply Forall2_cons_inv_l in Hvs as (v & vs' & Hk & Hvs & ->).
    rewrite Hk. simpl. f_equal.
    + f_equal. rewrite (String_parse k v Hk).
      apply mapIndex_lookup; [exact Hnd|]. apply Hsub. left.
    + apply IH; [|exact Hvs]. intros e He. apply Hsub. now right.
Qed.

Lemma entries_fmap c vs :
  NoDup (map fst (annotation c)) ->
  Forall2 (fun k v => semver.parse k = Some v) (map fst (annotation c)) vs ->
  (fun v => (v, mapIndex (annotation c) (semver.String v))) <$> vs = entries c.
Proof. intros Hnd Hvs. now apply entries_fmap_sub. Qed.

(** C3: the notices of an update are the entries of the table between
    the two versions, in ascending order.  For a table with distinct
    keys that are all versions, a current version that parses and a
    release whose version was read from a tag, [notices] returns the
    lines "- text" of a list of entries that holds exactly the entries
    [(v, text)] of the table with [current < v <= target] and is
    ascending in [v]; besides the messages it only writes to the log. *)
Theorem notices_in_range (c : selfUpdateCmd) (env : Env) (latest : Release)
    (w : world) (current : semver.Version) (tag : string) :
  NoDup (map fst (annotation c)) ->
  Forall (fun k => is_Some (semver.parse k)) (map fst (annotation c)) ->
  semver.parse (Version env) = Some current ->
  semver.parse tag = Some (version latest) ->
  exists sel logs,
    notices c env latest w
    = (Returns (map render sel), mkWorld (fs w) (trace w ++ logs))
    /\ sel ≡ₚ filter (fun e => inRange current (version latest) e.1 = true) (entries c)
    /\ StronglySorted (fun a b => versionLe a.1 b.1) sel
    /\ forallb isLog logs = true.
Proof.
  intros Hnd Hkeys Hcur Htag.
  assert (Hstop : semver.parse (Release_Version latest) = Some (version latest))
    by exact (parse_String tag _ Htag).
  destruct (mapM_is_Some_2 semver.parse _ Hkeys) as [vs Hvs].
  apply mapM_Some_1 in Hvs.
  pose (f := fun v => (v, mapIndex (annotation c) (semver.String v))).
  pose (P := fun v => inRange current (version latest) v = true).
  destruct (noticeLoop_returns c env latest current (version latest) Hcur Hstop
              (sort_Sort vs) [] w) as (logs & Hloop & Hlogs).
  pose proof (StronglySorted_merge_sort versionLe vs) as Hsorted.
  fold (sort_Sort vs) in Hsorted.
  exists (f <$> filter P (sort_Sort vs)), logs.
  repeat match goal with |- _ /\ _ => split end.
  - unfold notices.
    rewrite (bind_returns _ _ _ _ _ (parseKeys_returns _ _ [] w Hvs)).
    simpl. rewrite Hloop. simpl.
    rewrite (walk_filter _ _ _ Hsorted).
    do 2 f_equal. unfold f, render. rewrite <- list_fmap_compose. reflexivity.
  - rewrite <- (entries_fmap c vs Hnd Hvs).
    rewrite (filter_fmap f (fun e => inRange current (version latest) e.1 = true)).
    simpl. fold P. apply fmap_Permutation, filter_Permutation.
    apply merge_sort_Permutation.
  - apply (StronglySorted_fmap f versionLe); [auto|].
    now apply StronglySorted_filter.
  - exact Hlogs.
Qed.

Lemma notices_in_range_witness :
  let env := sample.env "1.1.0" (Ok (Some sample.release_1_3_0)) (Ok true) NoFault in
  (exists sel logs,
     notices sample.table env sample.release_1_3_0 (initial sample.files)
     = (Returns (map render sel), mkWorld sample.files logs)
     /\ sel ≡ₚ filter (fun e => inRange (semver.mkVersion 1 1 0 [] "")
                                  (semver.mkVersion 1 3 0 [] "") e.1 = true)
                 (entries sample.table)
     /\ StronglySorted (fun a b => versionLe a.1 b.1) sel
     /\ forallb isLog logs = true)
  /\ fst (notices sample.table env sample.release_1_3_0 (initial sample.files))
     = Returns ["- A"; "- B"]
  /\ filter (fun e => inRange (semver.mkVersion 1 1 0 [] "")
                        (semver.mkVersion 1 3 0 [] "") e.1 = true)
       (entries sample.table)
     = [(semver.mkVersion 1 2 0 [] "", "A"); (semver.mkVersion 1 3 0 [] "", "B")].
Proof.
  split; [|split; vm_compute; reflexivity].
  apply (notices_in_range sample.table
           (sample.env "1.1.0" (Ok (Some sample.release_1_3_0)) (Ok true) NoFault)
           sample.release_1_3_0 (initial sample.files)
           (semver.mkVersion 1 1 0 [] "") "1.3.0").
  - refine (bool_decide_unpack _ _). vm_compute. exact I.
  - repeat constructor; vm_compute; eauto.
  - reflexivity.
  - reflexivity.
Defined.

(** ** Interactive mode *)





(** ** Paths *)

Example filepath_Clean_rules :
  filepath_Clean "" = "." /\ filepath_Clean "/" = "/"
  /\ filepath_Clean "/home/u/" = "/home/u"
  /\ filepath_Clean "/home//u/./x" = "/home/u/x"
  /\ filepath_Clean "a/./b/../c" = "a/c"
  /\ filepath_Clean "/.." = "/" /\ filepath_Clean "../../a" = "../../a"
  /\ filepath_Clean "a/../.." = "..".
Proof. repeat split. Qed.

Example filepath_Join_rules :
  filepath_Join ["/home/u/"; ".afx"] = "/home/u/.afx"
  /\ filepath_Join [""; ".afx"] = ".afx"
  /\ filepath_Join ["/home/u"; ".afx"; "../../v/afx"] = "/home/v/afx"
  /\ filepath_Join ["/home/u"; ".afx"; ""] = "/home/u/.afx"
  /\ filepath_Join [""; ""] = "".
Proof. repeat split. Qed.

(** ** Paths of plain names *)













Example selectTag_archive_without_afx :
  let r := selectTag (newSelfUpdateCmd true)
             (sample.envUnpacking [("README.md", mkFile [] 420)])
             (initial sample.files) in
  fst r = Returns (Some (Foreign "open /home/u/.afx/afx: no such file or directory"))
  /\ existsb isInstall (trace (snd r)) = false
  /\ fs (snd r) !! sample.exePath = Some sample.oldBinary.
Proof. vm_compute. repeat split. Qed.

(** ** Malformed annotation keys *)

(** C5, as amended: the notice computation parses every annotation key
    with the parse that panics.  No key is discarded: a table with a
    key that is not a version makes the computation panic at once,
    before the walk, with nothing written to the log. *)
Theorem notices_malformed_key_panics (c : selfUpdateCmd) (env : Env)
    (latest : Release) (w : world) :
  Exists (fun k => semver.parse k = None) (map fst (annotation c)) ->
  notices c env latest w = (Panics "Invalid Semantic Version", w).
Proof.
  intros H. unfold notices. apply bind_panics. now apply parseKeys_panics.
Qed.

Lemma notices_malformed_key_panics_witness :
  notices (mkCmd false [("0.1.11", "first"); ("bogus", "second")])
    (sample.env "0.1.10" (Ok (Some sample.release_1_3_0)) (Ok true) NoFault)
    sample.release_1_3_0 (initial sample.files)
  = (Panics "Invalid Semantic Version", initial sample.files).
Proof.
  apply (notices_malformed_key_panics
           (mkCmd false [("0.1.11", "first"); ("bogus", "second")])).
  simpl. apply Exists_cons_tl, Exists_cons_hd. reflexivity.
Defined.

(** C5, the claim as stated fails: with a key that is not a version in
    the table, an update that has just replaced the executable ends in
    a panic instead of printing its notices. *)
Lemma run_malformed_key_panics :
  let r := run (mkCmd false [("0.1.11", "first"); ("bogus", "second")])
             (sample.env "0.1.10" (Ok (Some sample.release_1_3_0)) (Ok true) NoFault)
             (initial sample.files) in
  fst r = Panics "Invalid Semantic Version"
  /\ trace (snd r)
     = [EvDetectLatest "b4b4r07/afx";
        EvAskConfirm "Do you want to update to 1.3.0? (current version: 0.1.10)";
        EvExecutable;
        EvUpdateTo "https://example.org/afx_linux_amd64.tar.gz" sample.assetName
          sample.exePath;
        EvStdout ("Successfully updated to version 1.3.0" +:+ newline)]
  /\ fs (snd r) !! sample.exePath = Some (mkFile sample.newBytes 493).
Proof. vm_compute. repeat split. Qed.

(** ** [run], path by path *)

(** [run] up to the installer, one case per way out. *)
Lemma run_unfold c env w :
  run c env w
  = if String.eqb (Version env) "unset" then
      (Returns (Some (New "failed to run self-update")),
       after w [EvStderr (unsetMessage env)])
    else
      match detected env with
      | Failed err =>
          (Returns (Some (Wrap err "error occurred while detecting version")),
           after w [EvDetectLatest (Repository env)])
      | Ok None =>
          (Returns (Some (Errorf ("latest version for " +:+ GOOS env +:+ "/"
                                  +:+ GOARCH env
                                  +:+ " could not be found from GitHub repository"))),
           after w [EvDetectLatest (Repository env)])
      | Ok (Some latest) =>
          match semver.parse (Version env) with
          | None =>
              (Panics "Invalid Semantic Version",
               after w [EvDetectLatest (Repository env)])
          | Some current =>
              if semver.LessOrEqual (version latest) current then
                (Returns None,
                 after w [EvDetectLatest (Repository env);
                          EvStdout ("Current version (" +:+ Version env
                                    +:+ ") is the latest" +:+ newline)])
              else
                match confirmed env with
                | Failed err =>
                    (Returns (Some (Wrap err "cannot get answer from console")),
                     after w [EvDetectLatest (Repository env);
                              EvAskConfirm (confirmMessage env latest)])
                | Ok false =>
                    (Returns None,
                     after w [EvDetectLatest (Repository env);
                              EvAskConfirm (confirmMessage env latest)])
                | Ok true =>
                    match executable env with
                    | Failed _ =>
                        (Returns (Some (New "could not locate executable path")),
                         after w [EvDetectLatest (Repository env);
                                  EvAskConfirm (confirmMessage env latest);
                                  EvExecutable])
                    | Ok exe =>
                        match UpdateTo env (AssetURL latest) (AssetName latest) exe
                                (after w [EvDetectLatest (Repository env);
                                          EvAskConfirm (confirmMessage env latest);
                                          EvExecutable]) with
                        | (Returns (Ok _), w2) => afterUpdate c env latest w2
                        | (Returns (Failed err), w2) =>
                            (Returns (Some (Wrap err "error occurred while updating binary")),
                             w2)
                        | (Panics msg, w2) => (Panics msg, w2)
                        end
                    end
                end
          end
      end.
Proof.
  unfold run, after. destruct (String.eqb (Version env) "unset"); [reflexivity|].
  exec. destruct (detected env) as [[latest|]|err]; try reflexivity.
  unfold MustParse. destruct (semver.parse (Version env)) as [current|]; [|reflexivity].
  exec. destruct (semver.LessOrEqual (version latest) current); simpl.
  { now rewrite <- app_assoc. }
  rewrite <- app_assoc. simpl. fold (confirmMessage env latest).
  destruct (confirmed env) as [[|]|err]; simpl; try reflexivity.
  rewrite <- app_assoc. simpl.
  destruct (executable env) as [exe|err]; simpl; [|reflexivity].
  destruct (UpdateTo env _ _ exe _) as [[[[]|err]|msg] w2]; reflexivity.
Qed.

Lemma afterUpdate_unfold c env latest w :
  afterUpdate c env latest w
  = match notices c env latest (after w [EvStdout (successMessage latest)]) with
    | (Returns [], w3) => (Returns None, w3)
    | (Returns (m :: ms), w3) =>
        (Returns None, after w3 [EvStdout (noticeBlock latest (m :: ms))])
    | (Panics msg, w3) => (Panics msg, w3)
    end.
Proof.
  unfold afterUpdate, after, bind, emit, ret. simpl.
  destruct (notices c env latest _) as [[[|m ms]|msg] w3]; reflexivity.
Qed.

(** Events added to a trace are what is left after dropping it. *)
Lemma after_trace w evs : drop (length (trace w)) (trace (after w evs)) = evs.
Proof. unfold after. simpl. now rewrite drop_app_length. Qed.

(** X1: [run] leaves the files alone and calls no installer unless a
    release newer than a well-formed current version was detected,
    the user said yes and the executable was located. *)
Theorem run_installs_only_when_confirmed (c : selfUpdateCmd) (env : Env) (w : world) :
  (fs (snd (run c env w)) = fs w
   /\ exists evs, trace (snd (run c env w)) = (trace w ++ evs)%list
                  /\ existsb isInstall evs = false)
  \/ (exists latest current exe,
        Version env <> "unset"
        /\ detected env = Ok (Some latest)
        /\ semver.parse (Version env) = Some current
        /\ semver.LessOrEqual (version latest) current = false
        /\ confirmed env = Ok true
        /\ executable env = Ok exe).
Proof.
  rewrite run_unfold.
  destruct (String.eqb_spec (Version env) "unset") as [Hu|Hu].
  { left. split; [reflexivity|]. eexists. split; reflexivity. }
  destruct (detected env) as [[latest|]|err] eqn:Hd;
    try (left; split; [reflexivity|]; eexists; split; reflexivity).
  destruct (semver.parse (Version env)) as [current|] eqn:Hv;
    try (left; split; [reflexivity|]; eexists; split; reflexivity).
  destruct (semver.LessOrEqual (version latest) current) eqn:Hle;
    try (left; split; [reflexivity|]; eexists; split; reflexivity).
  destruct (confirmed env) as [[|]|err] eqn:Hc;
    try (left; split; [reflexivity|]; eexists; split; reflexivity).
  destruct (executable env) as [exe|err] eqn:He;
    try (left; split; [reflexivity|]; eexists; split; reflexivity).
  right. exists latest, current, exe.
  repeat match goal with |- _ /\ _ => split end; (assumption || reflexivity).
Qed.

(** X2: every error [run] returns is one of the six it builds itself. *)
Theorem run_error_catalogue (c : selfUpdateCmd) (env : Env) (w : world) :
  match fst (run c env w) with
  | Returns (Some e) => runError e
  | Returns None => True
  | Panics _ => True
  end.
Proof.
  rewrite run_unfold. unfold runError.
  destruct (String.eqb (Version env) "unset"); simpl; [auto|].
  destruct (detected env) as [[latest|]|err]; simpl; [|eauto 10..].
  destruct (semver.parse (Version env)) as [current|]; simpl; [|exact I].
  destruct (semver.LessOrEqual (version latest) current); simpl; [exact I|].
  destruct (confirmed env) as [[|]|err]; simpl; [|exact I|eauto 10].
  destruct (executable env) as [exe|err]; simpl; [|auto 10].
  destruct (UpdateTo env _ _ exe _) as [[[[]|err]|msg] w2]; simpl; [|eauto 10|exact I].
  rewrite afterUpdate_unfold.
  destruct (notices c env latest _) as [[[|m ms]|msg] w3]; exact I.
Qed.

(** X3: when the executable cannot be located, [run] drops the cause,
    returns "could not locate executable path" and stops short of the
    installer. *)
Theorem run_executable_unlocated (c : selfUpdateCmd) (env : Env) (w : world)
    (latest : Release) (current : semver.Version) (cause : error) :
  semver.parse (Version env) = Some current ->
  detected env = Ok (Some latest) ->
  semver.LessOrEqual (version latest) current = false ->
  confirmed env = Ok true ->
  executable env = Failed cause ->
  run c env w
  = (Returns (Some (New "could not locate executable path")),
     after w [EvDetectLatest (Repository env);
              EvAskConfirm (confirmMessage env latest);
              EvExecutable]).
Proof.
  intros Hv Hd Hle Hc He.
  rewrite run_unfold, (parsed_not_unset _ _ Hv), Hd, Hv, Hle, Hc, He. reflexivity.
Qed.

(** X4: when the installer fails, [run] wraps its error and ends there:
    no success line, and the annotation table is not even parsed. *)
Theorem run_update_failed (c : selfUpdateCmd) (env : Env) (w w2 : world)
    (latest : Release) (current : semver.Version) (exe : string) (err : error) :
  semver.parse (Version env) = Some current ->
  detected env = Ok (Some latest) ->
  semver.LessOrEqual (version latest) current = false ->
  confirmed env = Ok true ->
  executable env = Ok exe ->
  UpdateTo env (AssetURL latest) (AssetName latest) exe
    (after w [EvDetectLatest (Repository env);
              EvAskConfirm (confirmMessage env latest);
              EvExecutable])
  = (Returns (Failed err), w2) ->
  run c env w
  = (Returns (Some (Wrap err "error occurred while updating binary")), w2).
Proof.
  intros Hv Hd Hle Hc He Hu.
  rewrite run_unfold, (parsed_not_unset _ _ Hv), Hd, Hv, Hle, Hc, He, Hu. reflexivity.
Qed.

Lemma filter_nil_Forall {A} (P : A -> Prop) `{forall x, Decision (P x)} (l : list A) :
  filter P l = [] <-> Forall (fun x => ~ P x) l.
Proof.
  split; [|apply filter_none].
  induction l as [|x l IH]; [constructor|].
  rewrite filter_cons. destruct (decide (P x)); [discriminate|].
  intros Hl. constructor; auto.
Qed.

(** X5: a successful update ends well: [run] returns no error, prints the
    success line, walks the table writing to the log only, and prints
    the block of notices exactly when some version of the table lies
    above the current version and not above the target. *)
Theorem run_updated (c : selfUpdateCmd) (env : Env) (w w2 : world)
    (latest : Release) (current : semver.Version) (exe tag : string)
    (vs : list semver.Version) :
  semver.parse (Version env) = Some current ->
  detected env = Ok (Some latest) ->
  semver.LessOrEqual (version latest) current = false ->
  confirmed env = Ok true ->
  executable env = Ok exe ->
  UpdateTo env (AssetURL latest) (AssetName latest) exe
    (after w [EvDetectLatest (Repository env);
              EvAskConfirm (confirmMessage env latest);
              EvExecutable])
  = (Returns (Ok tt), w2) ->
  Forall2 (fun k v => semver.parse k = Some v) (map fst (annotation c)) vs ->
  semver.parse tag = Some (version latest) ->
  exists logs messages,
    run c env w
    = (Returns None,
       after w2 ([EvStdout (successMessage latest)] ++ logs
                 ++ match messages with
                    | [] => []
                    | _ => [EvStdout (noticeBlock latest messages)]
                    end))
    /\ forallb isLog logs = true
    /\ (messages = []
        <-> Forall (fun v => inRange current (version latest) v = false) vs).
Proof.
  intros Hv Hd Hle Hc He Hu Hvs Htag.
  assert (Hstop : semver.parse (Release_Version latest) = Some (version latest))
    by exact (parse_String tag _ Htag).
  destruct (noticeLoop_returns c env latest current (version latest) Hv Hstop
              (sort_Sort vs) [] (after w2 [EvStdout (successMessage latest)]))
    as (logs & Hloop & Hlogs).
  pose proof (StronglySorted_merge_sort versionLe vs) as Hsorted.
  fold (sort_Sort vs) in Hsorted.
  rewrite (walk_filter _ _ _ Hsorted) in Hloop. simpl in Hloop.
  set (msgs := map (fun v => "- " +:+ mapIndex (annotation c) (semver.String v))
                 (filter (fun v => inRange current (version latest) v = true)
                    (sort_Sort vs))) in *.
  exists logs, msgs. split; [|split; [exact Hlogs|]].
  - rewrite run_unfold, (parsed_not_unset _ _ Hv), Hd, Hv, Hle, Hc, He, Hu.
    rewrite afterUpdate_unfold. unfold notices.
    rewrite (bind_returns _ _ _ _ _ (parseKeys_returns _ _ [] _ Hvs)).
    simpl. rewrite Hloop. unfold after.
    destruct msgs as [|m ms]; simpl;
      rewrite ?app_nil_r, <- ?app_assoc; simpl;
      rewrite ?app_nil_r, <- ?app_assoc; reflexivity.
  - unfold msgs. split.
    + intros Hnil. apply fmap_nil_inv in Hnil.
      apply filter_nil_Forall in Hnil.
      rewrite <- (merge_sort_Permutation versionLe vs). fold (sort_Sort vs).
      eapply Forall_impl; [exact Hnil|]. intros v Hn. simpl in Hn.
      now destruct (inRange current (version latest) v).
    + intros Hall.
      rewrite <- (merge_sort_Permutation versionLe vs) in Hall. fold (sort_Sort vs) in Hall.
      rewrite (filter_none (fun v => inRange current (version latest) v = true));
        [reflexivity|].
      eapply Forall_impl; [exact Hall|]. intros v Hn. simpl in Hn. congruence.
Qed.

(** ** The table the command ships with *)

(** X6: the one notice of the shipped table is computed without a panic
    and shown exactly when the update crosses version 0.1.11: current
    below it, target at or above it. *)
Theorem shipped_notice_across_0_1_11 (tag : bool) (env : Env) (latest : Release)
    (w : world) (current : semver.Version) (text : string) :
  semver.parse (Version env) = Some current ->
  semver.parse text = Some (version latest) ->
  fst (notices (newSelfUpdateCmd tag) env latest w)
  = Returns (if inRange current (version latest) (semver.mkVersion 0 1 11 [] "")
             then ["- " +:+ refreshNotice]
             else []).
Proof.
  intros Hv Htext.
  assert (Hstop : semver.parse (Release_Version latest) = Some (version latest))
    by exact (parse_String text _ Htext).
  unfold notices.
  assert (Hkeys : Forall2 (fun k v => semver.parse k = Some v)
                    (map fst (annotation (newSelfUpdateCmd tag)))
                    [semver.mkVersion 0 1 11 [] ""])
    by (repeat constructor).
  rewrite (bind_returns _ _ _ _ _ (parseKeys_returns _ _ [] w Hkeys)).
  change (sort_Sort ([] ++ [semver.mkVersion 0 1 11 [] ""]))
    with [semver.mkVersion 0 1 11 [] ""].
  destruct (noticeLoop_returns (newSelfUpdateCmd tag) env latest current
              (version latest) Hv Hstop [semver.mkVersion 0 1 11 [] ""] [] w)
    as (logs & -> & _).
  simpl. unfold inRange. rewrite LessThan_not_LessOrEqual.
  destruct (semver.LessThan (version latest) (semver.mkVersion 0 1 11 [] ""));
    simpl; [now rewrite andb_false_r|].
  rewrite andb_true_r.
  destruct (semver.GreaterThan (semver.mkVersion 0 1 11 [] "") current); reflexivity.
Qed.

Lemma shipped_notice_across_0_1_11_witness :
  fst (notices (newSelfUpdateCmd false)
         (sample.env "0.1.10" (Ok (Some sample.release_1_3_0)) (Ok true) NoFault)
         sample.release_1_3_0 (initial sample.files))
  = Returns ["- " +:+ refreshNotice].
Proof.
  exact (shipped_notice_across_0_1_11 false
           (sample.env "0.1.10" (Ok (Some sample.release_1_3_0)) (Ok true) NoFault)
           sample.release_1_3_0 (initial sample.files)
           (semver.mkVersion 0 1 10 [] "") "1.3.0" eq_refl eq_refl).
Defined.

(** ** [selectTag], path by path *)

(** X7: interactive mode looks at nothing of the automatic one: the
    current version, the annotation table, the detection and the
    confirmation have no part in what [selectTag] does. *)
Theorem selectTag_ignores_version (c c' : selfUpdateCmd) (env env' : Env) (w : world) :
  Repository env = Repository env' ->
  HOME env = HOME env' ->
  listed env = listed env' ->
  selected env = selected env' ->
  matched env = matched env' ->
  fetched env = fetched env' ->
  unpacked env = unpacked env' ->
  executable env = executable env' ->
  installFault env = installFault env' ->
  selectTag c env w = selectTag c' env' w.
Proof.
  destruct env, env'. simpl. intros. subst. reflexivity.
Qed.

Lemma selectTag_ignores_version_witness :
  selectTag (newSelfUpdateCmd true)
    (sample.env "unset" (Ok None) (Ok false) NoFault) (initial sample.files)
  = selectTag sample.table
      (sample.env "1.3.0" (Ok (Some sample.release_1_3_0)) (Ok true) NoFault)
      (initial sample.files).
Proof.
  exact (selectTag_ignores_version (newSelfUpdateCmd true) sample.table
           (sample.env "unset" (Ok None) (Ok false) NoFault)
           (sample.env "1.3.0" (Ok (Some sample.release_1_3_0)) (Ok true) NoFault)
           (initial sample.files)
           eq_refl eq_refl eq_refl eq_refl eq_refl eq_refl eq_refl eq_refl eq_refl).
Defined.

Lemma find_none {A} (f : A -> bool) (l : list A) :
  Forall (fun x => f x = false) l -> List.find f l = None.
Proof.
  induction 1 as [|x l Hx _ IH]; simpl; [reflexivity|]. now rewrite Hx.
Qed.

(** X8: a selection that yields no tag does not stop [selectTag]: when
    the prompt fails and no listed release has an empty tag name, the
    command goes on to the download with an empty list of assets and
    returns the error of that step; the installer is not invoked and
    the files are as they were. *)
Theorem selectTag_no_tag_downloads_nothing (c : selfUpdateCmd) (env : Env)
    (w : world) (body : list releaseJSON) :
  listed env = Ok body ->
  selected env = None ->
  Forall (fun r => js_tag_name r <> "") body ->
  exists err,
    selectTag c env w
    = (Returns (Some err),
       after w [EvHttpGet (releasesURL env);
                EvAskSelect "Choose a tag you upgrade/downgrade:" (map js_tag_name body);
                EvDownload []]).
Proof.
  intros Hl Hs Hbody.
  unfold selectTag, Download. exec. rewrite Hl, Hs. simpl.
  rewrite find_none.
  2:{ eapply Forall_impl; [exact Hbody|]. intros r Hr. simpl in Hr.
      now apply String.eqb_neq. }
  simpl. unfold after, releasesURL.
  destruct (matched env) as [i|err]; simpl; eexists; rewrite <- !app_assoc; reflexivity.
Qed.

Lemma selectTag_no_tag_downloads_nothing_witness :
  exists err,
    selectTag (newSelfUpdateCmd true)
      (mkEnv "0.1.10" "b4b4r07/afx" "linux" "amd64" "go1.17" "/home/u" None
         (Ok None) (Ok true) None (Ok sample.exePath) (Ok sample.listing)
         (Ok sample.newBytes) (Ok 0%nat) (Ok []) NoFault)
      (initial sample.files)
    = (Returns (Some err),
       mkWorld sample.files
         [EvHttpGet "https://api.github.com/repos/b4b4r07/afx/releases";
          EvAskSelect "Choose a tag you upgrade/downgrade:" ["v1.3.0"];
          EvDownload []]).
Proof.
  refine (selectTag_no_tag_downloads_nothing (newSelfUpdateCmd true)
            (mkEnv "0.1.10" "b4b4r07/afx" "linux" "amd64" "go1.17" "/home/u" None
               (Ok None) (Ok true) None (Ok sample.exePath) (Ok sample.listing)
               (Ok sample.newBytes) (Ok 0%nat) (Ok []) NoFault)
            (initial sample.files) sample.listing eq_refl eq_refl _).
  repeat constructor. discriminate.
Defined.

(** X9: when the listing cannot be fetched, [selectTag] returns the error
    of [http.Get] as it is and asks nothing. *)
Theorem selectTag_listing_failed (c : selfUpdateCmd) (env : Env) (w : world)
    (err : error) :
  listed env = Failed err ->
  selectTag c env w = (Returns (Some err), after w [EvHttpGet (releasesURL env)]).
Proof.
  intros Hl. unfold selectTag. exec. now rewrite Hl.
Qed.

Lemma selectTag_listing_failed_witness :
  selectTag (newSelfUpdateCmd true)
    (mkEnv "0.1.10" "b4b4r07/afx" "linux" "amd64" "go1.17" "/home/u" None
       (Ok None) (Ok true) (Some 0%nat) (Ok sample.exePath)
       (Failed (Foreign "dial tcp: no route to host"))
       (Ok sample.newBytes) (Ok 0%nat) (Ok []) NoFault)
    (initial sample.files)
  = (Returns (Some (Foreign "dial tcp: no route to host")),
     mkWorld sample.files
       [EvHttpGet "https://api.github.com/repos/b4b4r07/afx/releases"]).
Proof.
  exact (selectTag_listing_failed (newSelfUpdateCmd true)
           (mkEnv "0.1.10" "b4b4r07/afx" "linux" "amd64" "go1.17" "/home/u" None
              (Ok None) (Ok true) (Some 0%nat) (Ok sample.exePath)
              (Failed (Foreign "dial tcp: no route to host"))
              (Ok sample.newBytes) (Ok 0%nat) (Ok []) NoFault)
           (initial sample.files) (Foreign "dial tcp: no route to host") eq_refl).
Defined.

(** ** What the notice computation leaves alone *)

Lemma parseKeys_world keys acc w : exists r, parseKeys keys acc w = (r, w).
Proof.
  revert acc. induction keys as [|k keys IH]; intros acc; simpl.
  - now eexists.
  - unfold bind, MustParse. destruct (semver.parse k) as [v|]; simpl.
    + apply IH.
    + now eexists.
Qed.

Lemma noticeLoop_world c env latest vs messages w :
  exists r logs,
    noticeLoop c env latest vs messages w = (r, after w logs)
    /\ forallb isLog logs = true.
Proof.
  revert messages w. induction vs as [|v vs IH]; intros messages w; simpl.
  - exists (Returns messages), []. unfold ret, after. rewrite app_nil_r, world_eta.
    now split.
  - unfold bind at 1, MustParse.
    destruct (semver.parse (Version env)) as [start|]; simpl.
    2:{ exists (Panics "Invalid Semantic Version"), [].
        unfold panic, after. rewrite app_nil_r, world_eta. now split. }
    unfold bind at 1.
    destruct (semver.parse (Release_Version latest)) as [stop|]; simpl.
    2:{ exists (Panics "Invalid Semantic Version"), [].
        unfold panic, after. rewrite app_nil_r, world_eta. now split. }
    unfold bind at 1, emit at 1. unfold bind at 1, emit at 1. simpl.
    destruct (semver.LessThan stop v).
    { do 2 eexists. unfold ret, after. simpl. rewrite <- app_assoc.
      split; reflexivity. }
    destruct (semver.GreaterThan v start);
      match goal with
      | |- context [noticeLoop _ _ _ vs ?m ?w'] =>
          destruct (IH m w') as (r & logs & -> & Hlogs)
      end;
      do 2 eexists; unfold after; simpl; rewrite <- !app_assoc; simpl;
      (split; [reflexivity | exact Hlogs]).
Qed.

(** X11: whatever the table and the versions, and whether it returns or
    panics, the notice computation writes to the log only: no file is
    touched and nothing else is recorded. *)
Theorem notices_only_logs (c : selfUpdateCmd) (env : Env) (latest : Release) (w : world) :
  exists logs,
    snd (notices c env latest w) = after w logs
    /\ forallb isLog logs = true.
Proof.
  unfold notices, bind.
  destruct (parseKeys_world (map fst (annotation c)) [] w) as [[vs|msg] ->].
  - destruct (noticeLoop_world c env latest (sort_Sort vs) [] w)
      as (r & logs & -> & Hlogs).
    now exists logs.
  - exists []. unfold after. rewrite app_nil_r, world_eta. now split.
Qed.

(** ** Witnesses of the paths of [run] *)

Lemma run_executable_unlocated_witness :
  run (newSelfUpdateCmd false)
    (mkEnv "0.1.10" "b4b4r07/afx" "linux" "amd64" "go1.17" "/home/u" None
       (Ok (Some sample.release_1_3_0)) (Ok true) (Some 0%nat)
       (Failed (Foreign "readlink /proc/self/exe: no such file"))
       (Ok sample.listing) (Ok sample.newBytes) (Ok 0%nat) (Ok []) NoFault)
    (initial sample.files)
  = (Returns (Some (New "could not locate executable path")),
     mkWorld sample.files
       [EvDetectLatest "b4b4r07/afx";
        EvAskConfirm "Do you want to update to 1.3.0? (current version: 0.1.10)";
        EvExecutable]).
Proof.
  exact (run_executable_unlocated (newSelfUpdateCmd false)
           (mkEnv "0.1.10" "b4b4r07/afx" "linux" "amd64" "go1.17" "/home/u" None
              (Ok (Some sample.release_1_3_0)) (Ok true) (Some 0%nat)
              (Failed (Foreign "readlink /proc/self/exe: no such file"))
              (Ok sample.listing) (Ok sample.newBytes) (Ok 0%nat) (Ok []) NoFault)
           (initial sample.files) sample.release_1_3_0
           (semver.mkVersion 0 1 10 [] "")
           (Foreign "readlink /proc/self/exe: no such file")
           eq_refl eq_refl eq_refl eq_refl eq_refl).
Defined.

Lemma run_update_failed_witness :
  fst (run (mkCmd false [("bogus", "never parsed")])
         (sample.env "0.1.10" (Ok (Some sample.release_1_3_0)) (Ok true) SwapFault)
         (initial sample.files))
  = Returns (Some (Wrap (Foreign "rename: permission denied")
                     "error occurred while updating binary")).
Proof.
  refine (f_equal fst
            (run_update_failed (mkCmd false [("bogus", "never parsed")])
               (sample.env "0.1.10" (Ok (Some sample.release_1_3_0)) (Ok true) SwapFault)
               (initial sample.files) _ sample.release_1_3_0
               (semver.mkVersion 0 1 10 [] "") sample.exePath
               (Foreign "rename: permission denied")
               eq_refl eq_refl eq_refl eq_refl eq_refl _)).
  vm_compute. reflexivity.
Defined.

Lemma run_updated_witness :
  exists (logs : list event) (messages : list string),
    fst (run sample.table
           (sample.env "1.1.0" (Ok (Some sample.release_1_3_0)) (Ok true) NoFault)
           (initial sample.files))
    = Returns None
    /\ forallb isLog logs = true
    /\ (messages = []
        <-> Forall (fun v => inRange (semver.mkVersion 1 1 0 [] "")
                               (semver.mkVersion 1 3 0 [] "") v = false)
              [semver.mkVersion 2 0 0 [] ""; semver.mkVersion 1 2 0 [] "";
               semver.mkVersion 1 3 0 [] ""]).
Proof.
  destruct (run_updated sample.table
              (sample.env "1.1.0" (Ok (Some sample.release_1_3_0)) (Ok true) NoFault)
              (initial sample.files)
              (snd (UpdateTo
                      (sample.env "1.1.0" (Ok (Some sample.release_1_3_0)) (Ok true) NoFault)
                      (AssetURL sample.release_1_3_0) (AssetName sample.release_1_3_0)
                      sample.exePath
                      (after (initial sample.files)
                         [EvDetectLatest "b4b4r07/afx";
                          EvAskConfirm
                            (confirmMessage
                               (sample.env "1.1.0" (Ok (Some sample.release_1_3_0))
                                  (Ok true) NoFault)
                               sample.release_1_3_0);
                          EvExecutable])))
              sample.release_1_3_0 (semver.mkVersion 1 1 0 [] "")
              sample.exePath "1.3.0"
              [semver.mkVersion 2 0 0 [] ""; semver.mkVersion 1 2 0 [] "";
               semver.mkVersion 1 3 0 [] ""]
              eq_refl eq_refl eq_refl eq_refl eq_refl)
    as (logs & messages & Hrun & Hlogs & Hmsgs).
  - vm_compute. reflexivity.
  - repeat constructor.
  - reflexivity.
  - exists logs, messages. split; [now rewrite Hrun|]. split; assumption.
Defined.
